(** * Result Interpreter of the BI agent demo (src/app.py)

  A shallow embedding of the in-repo logic of [app.py]: the SQL text
  normalizer, the three-strategy result parser, the chart synthesizer,
  the request handlers [process_request_async] / [process_request] and
  the CSV download action, followed by the properties checked against
  the specification.

  Conventions of the embedding.
  - Text is a [string] of 8-bit characters read as ASCII; characters
    above 127 (the UTF-8 bytes of the emoji in the fixed headings) are
    carried through unchanged and are neither whitespace, letters nor
    digits.
  - A Python value coming out of the JSON decoder is a [pyval]; a
    [dict] is an association list in insertion order.
  - An exception is an [exn]: its class name and its text.  Library
    calls ([json.loads], the table constructor, [to_csv]) and the pure
    code of [app.py] raise subclasses of [Exception] only and return a
    [result].  Foreign code (the agent run, an executed chart script)
    can also end with a [BaseException] outside [Exception]
    ([SystemExit], [KeyboardInterrupt], [asyncio.CancelledError]), which
    no [except Exception] of [app.py] catches: what it raises is a
    [fault], an [Error] or an [Exit], and it returns an [outcome].
  - The process-wide state (the table slot, the scripts handed to
    [exec], the files written, whether an event loop is running) is a
    [world] threaded through a small state-and-exception monad.
  - An executed script is arbitrary code: besides binding [chart] or
    raising, it can change the table it was given in place and change
    the process state (rebind the table slot, write files).  [exec] is
    therefore a function of the process state that returns the table
    and the process state as the script left them.  A script is taken
    not to reach into the local variables of the coroutine that runs
    it.
  - Signals delivered between two statements of [app.py] itself are not
    modelled.
  - [print] and [traceback.print_exc] are not modelled.
  - The agent runner, the JSON decoder, [exec], the table constructor on
    inputs that are not row records, and the file system are
    collaborators outside the repository: they are fields of the class
    [Collaborators], and every general statement holds for all of them. *)

From Stdlib Require Import ZArith List String Ascii Bool Lia.
From Stdlib Require Import Floats.SpecFloat.
From stdpp Require Import base gmap strings pretty.

Open Scope string_scope.
Set Warnings "-register-all".

(** ** Python [str] operations used by [app.py] *)

Module PyStr.

Definition code (c : ascii) : nat := nat_of_ascii c.

(** [str.isspace] on an ASCII character: TAB..CR, FS..US and space. *)
Definition is_space (c : ascii) : bool :=
  ((9 <=? code c)%nat && (code c <=? 13)%nat)
  || ((28 <=? code c)%nat && (code c <=? 32)%nat).

Fixpoint lstrip_by (p : ascii -> bool) (s : string) : string :=
  match s with
  | EmptyString => EmptyString
  | String c s' => if p c then lstrip_by p s' else s
  end.

Fixpoint rstrip_by (p : ascii -> bool) (s : string) : string :=
  match s with
  | EmptyString => EmptyString
  | String c s' =>
      match rstrip_by p s' with
      | EmptyString => if p c then EmptyString else String c EmptyString
      | r => String c r
      end
  end.

(** [s.strip()] *)
Definition strip (s : string) : string := rstrip_by is_space (lstrip_by is_space s).

(** [s.strip(chars)] for a one-character [chars] *)
Definition strip_char (ch : ascii) (s : string) : string :=
  rstrip_by (Ascii.eqb ch) (lstrip_by (Ascii.eqb ch) s).

(** [s.startswith(p)] *)
Definition startswith (p s : string) : bool := String.prefix p s.

(** [p in s] *)
Fixpoint contains (p s : string) : bool :=
  String.prefix p s ||
  match s with
  | EmptyString => false
  | String _ s' => contains p s'
  end.

(** [s.replace(old, new)] for a non-empty [old]: occurrences are taken
    left to right and do not overlap.  [skip] counts the characters of an
    occurrence that are still to be dropped. *)
Fixpoint replace_from (old new : string) (skip : nat) (s : string) : string :=
  match s with
  | EmptyString => EmptyString
  | String c s' =>
      match skip with
      | S k => replace_from old new k s'
      | O =>
          if String.prefix old s
          then new ++ replace_from old new (String.length old - 1) s'
          else String c (replace_from old new 0 s')
      end
  end.

Definition replace (old new s : string) : string := replace_from old new 0 s.

(** [s.split(sep)] for a non-empty [sep]: the first piece and the list of
    the following ones (the result of [split] is never empty). *)
Fixpoint split_from (sep : string) (skip : nat) (s : string) : string * list string :=
  match s with
  | EmptyString => (EmptyString, [])
  | String c s' =>
      match skip with
      | S k => split_from sep k s'
      | O =>
          if String.prefix sep s
          then let '(h, t) := split_from sep (String.length sep - 1) s' in
               (EmptyString, h :: t)
          else let '(h, t) := split_from sep 0 s' in
               (String c h, t)
      end
  end.

Definition split (sep s : string) : list string :=
  let '(h, t) := split_from sep 0 s in h :: t.

(** [pieces[-1]] on a list known to be non-empty *)
Definition last_piece (pieces : list string) : string := List.last pieces EmptyString.

(** [s.lower()] on ASCII text *)
Definition lower_char (c : ascii) : ascii :=
  if ((65 <=? code c)%nat && (code c <=? 90)%nat)
  then ascii_of_nat (code c + 32) else c.

Fixpoint lower (s : string) : string :=
  match s with
  | EmptyString => EmptyString
  | String c s' => String (lower_char c) (lower s')
  end.

(** [s[:n]] *)
Fixpoint take (n : nat) (s : string) : string :=
  match n, s with
  | S k, String c s' => String c (take k s')
  | _, _ => EmptyString
  end.

(** [s[n:]] *)
Fixpoint drop (n : nat) (s : string) : string :=
  match n, s with
  | S k, String _ s' => drop k s'
  | _, _ => s
  end.

(** truthiness of a [str] *)
Definition nonempty (s : string) : bool :=
  match s with EmptyString => false | _ => true end.

End PyStr.

(** ** The two regular-expression substitutions of the JSON strategy *)

Module Re.
Import PyStr.

(** [[a-z]] under [re.IGNORECASE] on ASCII text *)
Definition is_letter (c : ascii) : bool :=
  ((65 <=? code c)%nat && (code c <=? 90)%nat)
  || ((97 <=? code c)%nat && (code c <=? 122)%nat).

(** [re.sub(r'^```[a-z]*\s*', '', s, flags=re.IGNORECASE)]: the pattern
    is anchored at the start, both stars are greedy, and no later match
    is possible. *)
Definition sub_leading_fence (s : string) : string :=
  if startswith "```" s
  then lstrip_by is_space (lstrip_by is_letter (drop 3 s))
  else s.

(** A match of [\s*```$] starting exactly at the head of [s]: what is
    left after it.  [$] matches at the end of the text and just before a
    final newline. *)
Definition trailing_fence_here (s : string) : option string :=
  let t := lstrip_by is_space s in
  if startswith "```" t then
    let r := drop 3 t in
    if String.eqb r "" then Some ""
    else if String.eqb r (String (ascii_of_nat 10) "") then Some r
    else None
  else None.

(** [re.sub(r'\s*```$', '', s)]: the leftmost match is removed. *)
Fixpoint sub_trailing_fence (s : string) : string :=
  match trailing_fence_here s with
  | Some r => r
  | None =>
      match s with
      | EmptyString => EmptyString
      | String c s' => String c (sub_trailing_fence s')
      end
  end.

End Re.

(** ** Python values, exceptions *)

Module Py.

(** Binary64 numbers, as the specification of IEEE 754 in [SpecFloat]. *)
Definition float64 : Type := spec_float.

Inductive pyval : Type :=
| PNone
| PBool (b : bool)
| PInt (z : Z)
| PFloat (f : float64)
| PStr (s : string)
| PList (l : list pyval)
| PDict (d : list (string * pyval)).

(** [d.get(k)] on an insertion-ordered dict *)
Fixpoint dict_lookup (k : string) (d : list (string * pyval)) : option pyval :=
  match d with
  | [] => None
  | (k', v) :: d' => if String.eqb k k' then Some v else dict_lookup k d'
  end.

(** [d[k] = v]: an existing key keeps its position. *)
Fixpoint dict_set (k : string) (v : pyval) (d : list (string * pyval))
  : list (string * pyval) :=
  match d with
  | [] => [(k, v)]
  | (k', v') :: d' =>
      if String.eqb k k' then (k, v) :: d' else (k', v') :: dict_set k v d'
  end.

Definition float_is_zero (f : float64) : bool :=
  match f with S754_zero _ => true | _ => false end.

(** [bool(v)] *)
Definition truthy (v : pyval) : bool :=
  match v with
  | PNone => false
  | PBool b => b
  | PInt z => negb (z =? 0)%Z
  | PFloat f => negb (float_is_zero f)
  | PStr s => PyStr.nonempty s
  | PList l => match l with [] => false | _ => true end
  | PDict d => match d with [] => false | _ => true end
  end.

(** [type(v).__name__] *)
Definition type_name (v : pyval) : string :=
  match v with
  | PNone => "NoneType"
  | PBool _ => "bool"
  | PInt _ => "int"
  | PFloat _ => "float"
  | PStr _ => "str"
  | PList _ => "list"
  | PDict _ => "dict"
  end.

(** An exception: its class name and [str(e)]. *)
Record exn : Type := Exn { exn_class : string; exn_str : string }.

(** What foreign code can raise: an [Error] is an instance of a subclass
    of [Exception], which [except Exception] catches; an [Exit] is an
    instance of a [BaseException] outside [Exception] ([SystemExit],
    [KeyboardInterrupt], [GeneratorExit], [asyncio.CancelledError]),
    which [except Exception] lets through. *)
Inductive fault : Type :=
| Error (e : exn)
| Exit (b : exn).

(** How a call ends: it returns, or raises something of type [E]. *)
Inductive answer (E A : Type) : Type :=
| Ok (a : A)
| Raise (e : E).
Arguments Ok {E A} a.
Arguments Raise {E A} e.

(** A call that raises subclasses of [Exception] only *)
Definition result : Type -> Type := answer exn.

(** A call that can raise any [BaseException] *)
Definition outcome : Type -> Type := answer fault.

Definition AttributeError (v : pyval) (attr : string) : exn :=
  Exn "AttributeError"
      ("'" ++ type_name v ++ "' object has no attribute '" ++ attr ++ "'").

Definition ValueError (msg : string) : exn := Exn "ValueError" msg.

Definition RuntimeError (msg : string) : exn := Exn "RuntimeError" msg.

End Py.

(** ** The builtin [float] on text *)

Module PyFloat.
Import PyStr Py.

Definition is_digit (c : ascii) : bool := (48 <=? code c)%nat && (code c <=? 57)%nat.

Definition digit_val (c : ascii) : Z := Z.of_nat (code c - 48).

Definition underscore : ascii := ascii_of_nat 95.

(** An underscore is accepted only between two digits; [prev] tells
    whether the character before was a digit.  The text without its
    underscores, or [None]. *)
Fixpoint drop_underscores (prev_digit : bool) (s : string) : option string :=
  match s with
  | EmptyString => Some EmptyString
  | String c s' =>
      if Ascii.eqb c underscore then
        match s' with
        | String d _ =>
            if prev_digit && is_digit d then drop_underscores false s' else None
        | EmptyString => None
        end
      else
        match drop_underscores (is_digit c) s' with
        | Some r => Some (String c r)
        | None => None
        end
  end.

(** A run of digits: accumulated value, number of digits read, rest. *)
Fixpoint read_digits (acc : Z) (n : nat) (s : string) : Z * nat * string :=
  match s with
  | String c s' =>
      if is_digit c then read_digits (10 * acc + digit_val c)%Z (S n) s'
      else (acc, n, s)
  | EmptyString => (acc, n, s)
  end.

(** An optional sign: [true] for minus. *)
Definition read_sign (s : string) : bool * string :=
  match s with
  | String "-" s' => (true, s')
  | String "+" s' => (false, s')
  | _ => (false, s)
  end.

Definition to_float64 (z : Z) : float64 := binary_normalize 53 1024 z 0 false.

(** The binary64 number nearest to [(-1)^neg * m * 10^e] (ties to even). *)
Definition of_decimal (neg : bool) (m : Z) (e : Z) : float64 :=
  match m with
  | Zpos p =>
      if (0 <=? e)%Z
      then binary_normalize 53 1024 ((if neg then -1 else 1) * (m * 10 ^ e))%Z 0 false
      else match (10 ^ (- e))%Z with
           | Zpos q => SFdiv 53 1024 (S754_finite neg p 0) (S754_finite false q 0)
           | _ => S754_nan
           end
  | _ => S754_zero neg
  end.

(** The exponent part [(e|E)[sign]digits]; no exponent is exponent 0, an
    [e] without digits is left unread. *)
Definition read_exponent (s : string) : Z * string :=
  match s with
  | String c s' =>
      if Ascii.eqb c "e" || Ascii.eqb c "E" then
        let '(neg, s1) := read_sign s' in
        let '(v, n, s2) := read_digits 0 0 s1 in
        match n with
        | O => (0%Z, s)
        | _ => ((if neg then - v else v)%Z, s2)
        end
      else (0%Z, s)
  | EmptyString => (0%Z, s)
  end.

(** [[sign] (digits [. [digits]] | . digits) [exponent]], all consumed *)
Definition parse_number (neg : bool) (s : string) : option float64 :=
  let '(m1, n1, s1) := read_digits 0 0 s in
  let '(m2, n2, s2) :=
    match s1 with
    | String "." s1' => read_digits m1 0 s1'
    | _ => (m1, O, s1)
    end in
  match (n1 + n2)%nat with
  | O => None
  | _ =>
      let '(e, s3) := read_exponent s2 in
      match s3 with
      | EmptyString => Some (of_decimal neg m2 (e - Z.of_nat n2))
      | _ => None
      end
  end.

(** The whitespace [float] skips around an ASCII text: TAB..CR and
    space (the characters FS..US, which [str.strip] removes, are not). *)
Definition is_c_space (c : ascii) : bool :=
  ((9 <=? code c)%nat && (code c <=? 13)%nat) || (code c =? 32)%nat.

(** [float(text)]: [None] stands for [ValueError]. *)
Definition py_float (text : string) : option float64 :=
  match drop_underscores false text with
  | None => None
  | Some t =>
      let '(neg, body) := read_sign (rstrip_by is_c_space (lstrip_by is_c_space t)) in
      let l := lower body in
      if String.eqb l "inf" || String.eqb l "infinity" then Some (S754_infinity neg)
      else if String.eqb l "nan" then Some S754_nan
      else parse_number neg body
  end.

End PyFloat.

(** ** Tables ([pandas.DataFrame]) *)

Module Pandas.
Import Py.

(** A table: its column labels and its rows, every row with one cell per
    column. *)
Record DataFrame : Type := Frame { df_columns : list string; df_rows : list (list pyval) }.

(** [pd.DataFrame()] *)
Definition empty_frame : DataFrame := Frame [] [].

(** [df.empty]: some axis has length 0. *)
Definition df_empty (df : DataFrame) : bool :=
  match df_columns df, df_rows df with
  | _ :: _, _ :: _ => false
  | _, _ => true
  end.

(** [len(df)] *)
Definition df_len (df : DataFrame) : nat := List.length (df_rows df).

Definition add_column (cols : list string) (k : string) : list string :=
  if existsb (String.eqb k) cols then cols else cols ++ [k].

(** The union of the keys of the records, in order of first appearance. *)
Definition columns_of (records : list (list (string * pyval))) : list string :=
  fold_left (fun cols r => fold_left add_column (map fst r) cols) records [].

Definition NaN : pyval := PFloat S754_nan.

Definition cell (r : list (string * pyval)) (k : string) : pyval :=
  default NaN (dict_lookup k r).

(** [pd.DataFrame(records)] for a list of row records *)
Definition frame_of_records (records : list (list (string * pyval))) : DataFrame :=
  let cols := columns_of records in
  Frame cols (map (fun r => map (cell r) cols) records).

(** [df.to_dict(orient='records')] *)
Definition to_records (df : DataFrame) : list (list (string * pyval)) :=
  map (fun row => combine (df_columns df) row) (df_rows df).

(** The elements of a list when all of them are dicts. *)
Fixpoint as_records (l : list pyval) : option (list (list (string * pyval))) :=
  match l with
  | [] => Some []
  | PDict d :: l' =>
      match as_records l' with
      | Some rs => Some (d :: rs)
      | None => None
      end
  | _ :: _ => None
  end.

End Pandas.

(** ** The application: [app.py] *)

Module App.
Import PyStr Py Pandas.

Definition nl : string := String "010"%char EmptyString.

(** *** Charts *)

(** The Altair text chart built by [create_no_data_chart]. *)
Record altair_chart : Type := AltairChart {
  chart_data : DataFrame;
  mark : string;
  mark_size : Z;
  mark_color : string;
  mark_fontWeight : Z;
  mark_font : string;
  encode_text : string;
  prop_width : Z;
  prop_height : Z;
  prop_title : string;
  view_strokeWidth : Z
}.

(** *** The agent run *)

Record event_actions : Type := Actions { state_delta : list (string * string) }.
Record event : Type := Event { actions : option event_actions }.

(** *** The environment of [exec] *)

(** The [namespace] dict handed to [exec]: [alt] and [pd] are the
    modules, [df] and [data] depend on the request. *)
Record namespace : Type := Namespace {
  ns_df : DataFrame;
  ns_data : list (list (string * pyval))
}.

(** An object bound by an executed script; the application never looks
    inside it, so it is known by a handle only. *)
Record PyObject : Type := Handle { handle : string }.

(** A chart as the handlers return it: the placeholder built by
    [create_no_data_chart], or the object a script bound to [chart]. *)
Inductive chart_obj : Type :=
| TextChart (c : altair_chart)
| ExecChart (o : PyObject).

(** *** Process state *)

Record world : Type := World {
  (** the global [current_df_storage] *)
  current_df_storage : option DataFrame;
  (** the scripts handed to [exec], oldest first *)
  exec_log : list string;
  (** the CSV files written with [to_csv]: path and table *)
  csv_files : list (string * DataFrame);
  (** whether an asyncio event loop is running in the calling thread *)
  loop_running : bool
}.

(** What running a script leaves behind: [script_chart] is the object
    bound to [chart] when the script ends ([namespace.get('chart')]) or
    what the script raised; [script_df] is the table that was handed
    over as [df], as it is afterwards (the script holds the very object
    that the handler returns and stores, and can change it in place);
    [script_world] is the process state afterwards (the script can
    import the application module and rebind the slot, or write
    tables to files).  What a script prints, and the files it writes
    by other means, are no part of the state. *)
Record exec_result : Type := ExecResult {
  script_chart : outcome (option PyObject);
  script_df : DataFrame;
  script_world : world
}.

(** *** Collaborators outside the repository *)

Class Collaborators : Type := {
  (** session creation and the event stream of [root_runner.run_async]
      on a question, or what it ends with: an exception, or an [Exit]
      such as the cancellation of the run *)
  run_async : string -> outcome (list event);
  (** [json.loads] *)
  json_loads : string -> result pyval;
  (** [str(v)] for a value that is not a [str] *)
  py_repr : pyval -> string;
  (** [pd.DataFrame(v)] for a value that is not a list of dicts *)
  pd_DataFrame_other : pyval -> result DataFrame;
  (** [exec(code, namespace)] in a given process state *)
  py_exec : string -> namespace -> world -> exec_result;
  (** [tempfile.gettempdir()] *)
  gettempdir : string;
  (** [datetime.now().strftime('%Y%m%d_%H%M%S')] *)
  now_stamp : string;
  (** [os.path.join] *)
  path_join : string -> string -> string;
  (** [df.to_csv(path, index=False, encoding='utf-8')] *)
  to_csv : DataFrame -> string -> result unit
}.

Section Interpreter.
Context `{Collaborators}.


(** *** The monad of effects *)

Definition M (A : Type) : Type := world -> outcome A * world.

Definition ret {A} (a : A) : M A := fun w => (Ok a, w).

Definition bind {A B} (m : M A) (k : A -> M B) : M B :=
  fun w => match m w with
           | (Ok a, w') => k a w'
           | (Raise e, w') => (Raise e, w')
           end.

(** [raise e] for an instance [e] of a subclass of [Exception] *)
Definition raise {A} (e : exn) : M A := fun w => (Raise (Error e), w).

(** A library call or a pure function of [app.py] inside the flow *)
Definition lift {A} (r : result A) : M A :=
  fun w => match r with
           | Ok a => (Ok a, w)
           | Raise e => (Raise (Error e), w)
           end.

(** Foreign code inside the flow *)
Definition lift_outcome {A} (r : outcome A) : M A := fun w => (r, w).

(** [try: m except Exception as e: handler(e)]: an [Exit] is not an
    [Exception] and goes on to the caller. *)
Definition try_except {A} (m : M A) (handler : exn -> M A) : M A :=
  fun w => match m w with
           | (Ok a, w') => (Ok a, w')
           | (Raise (Error e), w') => handler e w'
           | (Raise (Exit b), w') => (Raise (Exit b), w')
           end.

Notation "x <- m ;; k" := (bind m (fun x => k))
  (at level 100, m at next level, k at level 200, right associativity).
Notation "m ;;; k" := (bind m (fun _ => k))
  (at level 100, k at level 200, right associativity).

Definition set_storage (v : option DataFrame) : M unit :=
  fun w => (Ok tt, World v (exec_log w) (csv_files w) (loop_running w)).

Definition get_storage : M (option DataFrame) :=
  fun w => (Ok (current_df_storage w), w).

(** [exec(code, namespace)]: the script runs in the current process
    state; afterwards the slot and the files are what the script made
    of them, and the script is on the log.  The call itself always
    comes back with how the script ended and with the table as the
    script left it. *)
Definition do_exec (code : string) (ns : namespace)
  : M (outcome (option PyObject) * DataFrame) :=
  fun w => let ran := py_exec code ns w in
           (Ok (script_chart ran, script_df ran),
            World (current_df_storage (script_world ran)) (exec_log w ++ [code])
                  (csv_files (script_world ran)) (loop_running w)).

Definition write_csv (df : DataFrame) (path : string) : M unit :=
  fun w => match to_csv df path with
           | Ok _ => (Ok tt, World (current_df_storage w) (exec_log w)
                                   (csv_files w ++ [(path, df)]) (loop_running w))
           | Raise e => (Raise (Error e), w)
           end.

(** [asyncio.run(coro)]: refuses to start when a loop is already
    running in the thread, otherwise drives the coroutine to its end. *)
Definition asyncio_run {A} (coro : M A) : M A :=
  fun w => if loop_running w
           then (Raise (Error (RuntimeError
                          "asyncio.run() cannot be called from a running event loop")), w)
           else coro w.

(** *** [run_bi_pipeline_async] *)

Definition merge_delta (results : gmap string string) (ev : event)
  : gmap string string :=
  match actions ev with
  | Some a => fold_left (fun r kv => <[fst kv := snd kv]> r) (state_delta a) results
  | None => results
  end.

(** The [results] dict after all events: later deltas overwrite. *)
Definition collect_state (events : list event) : gmap string string :=
  fold_left merge_delta events ∅.

Definition run_bi_pipeline_async (user_question : string) : M (gmap string string) :=
  events <- lift_outcome (run_async user_question) ;;
  ret (collect_state events).

(** *** SQL text normalizer (lines 166-174 of [process_request_async]) *)

Definition thinking_close : string := "</thinking_process>".
Definition thinking_open : string := "<thinking_process>".
Definition fence : string := "```".

Definition sql_text_normalizer (sql_query : string) : string :=
  let sql_query :=
    if contains thinking_close sql_query
    then strip (last_piece (split thinking_close sql_query))
    else sql_query in
  let sql_query := strip sql_query in
  if startswith "```sql" sql_query
  then strip (replace fence "" (replace "```sql" "" sql_query))
  else if startswith fence sql_query
  then strip (replace fence "" sql_query)
  else sql_query.

(** *** Result parser (lines 180-247) *)

(** Method 1: JSON *)
Definition json_strategy (raw_str : string) : result pyval :=
  let clean_json := Re.sub_trailing_fence (Re.sub_leading_fence raw_str) in
  match json_loads clean_json with
  | Ok (PList l) => Ok (PDict [("success", PBool true); ("data", PList l)])
  | Ok parsed_json => Ok parsed_json
  | Raise e => Raise e
  end.

Definition pipe : ascii := "|"%char.

Definition table_lines_of (raw_str : string) : list string :=
  map strip
      (List.filter (fun line => contains "|" line && nonempty (strip line))
              (split nl raw_str)).

Definition cells_of (line : string) : list string :=
  map strip (split "|" (strip_char pipe line)).

Definition headers_of (line : string) : list string :=
  map (replace "\_" "_") (cells_of line).

(** [float(val)] when it succeeds, else the text *)
Definition coerce (val : string) : pyval :=
  match PyFloat.py_float val with
  | Some f => PFloat f
  | None => PStr val
  end.

(** The loop over [enumerate(headers)] filling [row_dict] *)
Fixpoint fill_row (headers values : list string) (i : nat)
         (row_dict : list (string * pyval)) : list (string * pyval) :=
  match headers with
  | [] => row_dict
  | header :: rest =>
      let val := nth i values "" in
      fill_row rest values (S i) (dict_set header (coerce val) row_dict)
  end.

Definition list_string_eqb (a b : list string) : bool :=
  (List.length a =? List.length b)%nat
  && forallb (fun p => String.eqb (fst p) (snd p)) (combine a b).

(** The loop over [table_lines[2:]] *)
Fixpoint data_rows (headers : list string) (lines : list string) : list pyval :=
  match lines with
  | [] => []
  | line :: rest =>
      if startswith ":" line || contains "---" line
      then data_rows headers rest
      else
        let values := cells_of line in
        if (List.length values =? List.length headers)%nat
           && negb (list_string_eqb values headers)
        then PDict (fill_row headers values 0 []) :: data_rows headers rest
        else data_rows headers rest
  end.

(** Method 2: Markdown table *)
Definition table_strategy (raw_str : string) : result pyval :=
  let table_lines := table_lines_of raw_str in
  if (3 <=? List.length table_lines)%nat then
    let headers := headers_of (nth 0 table_lines "") in
    let data_list := data_rows headers (skipn 2 table_lines) in
    match data_list with
    | _ :: _ => Ok (PDict [("success", PBool true); ("data", PList data_list)])
    | [] => Raise (ValueError "No data rows extracted from table")
    end
  else Raise (ValueError ("Invalid table format: found "
                            ++ pretty (List.length table_lines) ++ " lines")).

(** Method 3: the text is an error message *)
Definition fallback_strategy (raw_str : string) : pyval :=
  PDict [("success", PBool false);
         ("data", PList []);
         ("error", PStr ("Could not parse query results. Output: " ++ take 100 raw_str))].

Definition result_parser (query_results_str : string) : pyval :=
  let raw_str := strip query_results_str in
  match json_strategy raw_str with
  | Ok query_results => query_results
  | Raise e_json =>
      match table_strategy raw_str with
      | Ok query_results => query_results
      | Raise e_table => fallback_strategy raw_str
      end
  end.

(** *** Chart synthesizer (lines 281-316) *)

(** The script after the thinking block and the fences are removed *)
Definition clean_chart_script (chart_spec : string) : string :=
  let chart_spec_clean := strip chart_spec in
  let chart_spec_clean :=
    if contains thinking_open chart_spec_clean then
      let parts := split thinking_close chart_spec_clean in
      if (1 <? List.length parts)%nat then strip (last_piece parts)
      else chart_spec_clean
    else chart_spec_clean in
  strip (replace fence "" (replace "```python" "" chart_spec_clean)).

(** The guard "no valid code found" *)
Definition chart_rejected (chart_spec_clean : string) : bool :=
  negb (nonempty chart_spec_clean)
  || startswith "<" chart_spec_clean
  || negb (contains "import" (lower chart_spec_clean)).

(** The chart, and the table [df] as it is afterwards: [df] names one
    object, which an executed script can change in place, also when the
    script then raises.  The [except SyntaxError] and [except Exception]
    clauses only print, so they are one handler that leaves [chart] at
    [None]; cleaning and the guard are pure and raise nothing. *)
Definition chart_synthesizer (chart_spec : string) (df : DataFrame)
  : M (option PyObject * DataFrame) :=
  if nonempty chart_spec then
    let chart_spec_clean := clean_chart_script chart_spec in
    if chart_rejected chart_spec_clean then ret (None, df)
    else
      ran <- do_exec chart_spec_clean (Namespace df (to_records df)) ;;
      chart <- try_except (lift_outcome (fst ran)) (fun _ => ret None) ;;
      ret (chart, snd ran)
  else ret (None, df).

(** *** [process_request_async] *)

(** The four outputs: SQL text, table, chart, explanation. *)
Definition response : Type :=
  (string * option DataFrame * option chart_obj * string)%type.

(** [v.get(k, dflt)] *)
Definition py_get (v : pyval) (k : string) (dflt : pyval) : result pyval :=
  match v with
  | PDict d => Ok (default dflt (dict_lookup k d))
  | _ => Raise (AttributeError v "get")
  end.

(** [str(v)], as an f-string formats a value *)
Definition py_str (v : pyval) : string :=
  match v with
  | PStr s => s
  | _ => py_repr v
  end.

(** [pd.DataFrame(data_list)] *)
Definition pd_DataFrame (data_list : pyval) : result DataFrame :=
  match data_list with
  | PList l =>
      match as_records l with
      | Some records => Ok (frame_of_records records)
      | None => pd_DataFrame_other data_list
      end
  | _ => pd_DataFrame_other data_list
  end.

Definition final_insights_of (trend_text explanation_text : string) : string :=
  let final_insights := "" in
  let final_insights :=
    if nonempty trend_text
    then final_insights ++ "### 📈 Strategic Trends" ++ nl ++ trend_text
                        ++ nl ++ nl ++ "---" ++ nl
    else final_insights in
  let final_insights :=
    if nonempty explanation_text
    then final_insights ++ "### 💡 Data Summary" ++ nl ++ explanation_text
    else final_insights in
  if nonempty final_insights then final_insights
  else "The query executed successfully but no additional insights were generated.".

Definition error_sql (sql_query error_msg : string) : string :=
  "-- Error executing query" ++ nl ++ sql_query ++ nl ++ nl ++ "-- Error: " ++ error_msg.

Definition error_reply (e : exn) : response :=
  let error_msg := "Error: " ++ exn_str e in
  (error_msg, None, None, error_msg).

(** The body of the outer [try] *)
Definition process_request_async_body (message : string) : M response :=
  if negb (nonempty (strip message))
  then ret ("Error: Please enter a question", None, None, "Error: No question provided")
  else
    results <- run_bi_pipeline_async message ;;
    let sql_query := sql_text_normalizer (default "" (results !! "sql_query")) in
    let query_results := result_parser (default "{}" (results !! "query_results")) in
    success <- lift (py_get query_results "success" (PBool false)) ;;
    if negb (truthy success) then
      error_msg <- lift (py_get query_results "error" (PStr "Unknown error")) ;;
      ret (error_sql sql_query (py_str error_msg), None, None,
           "Error executing query: " ++ py_str error_msg)
    else
      data_list <- lift (py_get query_results "data" (PList [])) ;;
      if negb (truthy data_list) then
        ret (sql_query, Some empty_frame, None,
             "The query executed successfully but returned no data.")
      else
        df <- lift (pd_DataFrame data_list) ;;
        let final_insights :=
          final_insights_of (default "" (results !! "trend_insights"))
                            (default "" (results !! "explanation_text")) in
        drawn <- chart_synthesizer (default "" (results !! "chart_spec")) df ;;
        let chart := fst drawn in
        let df := snd drawn in
        ret (sql_query, Some df, option_map ExecChart chart, final_insights).

Definition process_request_async (message : string) : M response :=
  try_except (process_request_async_body message) (fun e => ret (error_reply e)).

(** *** [create_no_data_chart] *)

Definition create_no_data_chart : altair_chart :=
  let data := Frame ["message"] [[PStr "No Data to Display for this Query"]] in
  {| chart_data := data;
     mark := "text";
     mark_size := 18;
     mark_color := "#718096";
     mark_fontWeight := 500;
     mark_font := "Source Code Pro";
     encode_text := "message:N";
     prop_width := 500;
     prop_height := 300;
     prop_title := "Visual Insight Summary";
     view_strokeWidth := 0 |}.

(** *** [process_request] *)

(** [df is None or df.empty] *)
Definition no_table (df : option DataFrame) : bool :=
  match df with
  | None => true
  | Some d => df_empty d
  end.

(** The body of the [try] *)
Definition process_request_body (message : string) : M response :=
  r <- asyncio_run (process_request_async message) ;;
  let '(sql_query, df, chart, explanation) := r in
  if no_table df then
    let no_data_chart := create_no_data_chart in
    set_storage None ;;;
    ret (sql_query, df, Some (TextChart no_data_chart), explanation)
  else
    set_storage df ;;;
    ret (sql_query, df, chart, explanation).

Definition process_request (message : string) : M response :=
  try_except (process_request_body message) (fun e => ret (error_reply e)).

(** *** [download_query_results] *)

Definition no_data_to_download : string :=
  "No data to download. Please run a query first.".

Definition download_query_results : M string :=
  stored <- get_storage ;;
  match stored with
  | None => ret no_data_to_download
  | Some df =>
      if df_empty df then ret no_data_to_download
      else
        try_except
          (let temp_dir := gettempdir in
           let timestamp := now_stamp in
           let csv_filename := "query_results_" ++ timestamp ++ ".csv" in
           let csv_path := path_join temp_dir csv_filename in
           write_csv df csv_path ;;;
           ret csv_path)
          (fun e => ret ("Error downloading file: " ++ exn_str e))
  end.

End Interpreter.
End App.

(** ** A decoder for JSON text (the behaviour of [json.loads] on ASCII
     input), used to run the examples *)

Module Json.
Import PyStr Py.

Definition dquote : ascii := "034"%char.
Definition backslash : ascii := "092"%char.

(** JSON whitespace: space, TAB, LF, CR *)
Definition is_ws (c : ascii) : bool :=
  (code c =? 32)%nat || (code c =? 9)%nat || (code c =? 10)%nat || (code c =? 13)%nat.

Definition skip_ws (s : string) : string := lstrip_by is_ws s.

Definition hex_val (c : ascii) : option N :=
  let n := code c in
  if (48 <=? n)%nat && (n <=? 57)%nat then Some (N.of_nat (n - 48))
  else if (97 <=? n)%nat && (n <=? 102)%nat then Some (N.of_nat (n - 87))
  else if (65 <=? n)%nat && (n <=? 70)%nat then Some (N.of_nat (n - 55))
  else None.

(** Four hexadecimal digits *)
Definition hex4 (s : string) : option (N * string) :=
  match s with
  | String a (String b (String c (String d rest))) =>
      match hex_val a, hex_val b, hex_val c, hex_val d with
      | Some x, Some y, Some z, Some w =>
          Some (((x * 16 + y) * 16 + z) * 16 + w, rest)%N
      | _, _, _, _ => None
      end
  | _ => None
  end.

Definition byte (n : N) : ascii := ascii_of_N n.

(** The UTF-8 bytes of a code point *)
Definition utf8 (cp : N) : string :=
  if (cp <? 128)%N then String (byte cp) ""
  else if (cp <? 2048)%N then
    String (byte (192 + cp / 64)) (String (byte (128 + cp mod 64)) "")
  else if (cp <? 65536)%N then
    String (byte (224 + cp / 4096))
      (String (byte (128 + (cp / 64) mod 64)) (String (byte (128 + cp mod 64)) ""))
  else
    String (byte (240 + cp / 262144))
      (String (byte (128 + (cp / 4096) mod 64))
         (String (byte (128 + (cp / 64) mod 64)) (String (byte (128 + cp mod 64)) ""))).

Definition simple_escape (c : ascii) : option ascii :=
  let n := code c in
  if (n =? 34)%nat then Some dquote            (* quote *)
  else if (n =? 92)%nat then Some backslash    (* backslash *)
  else if (n =? 47)%nat then Some "/"%char
  else if (n =? 98)%nat then Some "008"%char   (* backspace *)
  else if (n =? 102)%nat then Some "012"%char  (* form feed *)
  else if (n =? 110)%nat then Some "010"%char  (* line feed *)
  else if (n =? 114)%nat then Some "013"%char  (* carriage return *)
  else if (n =? 116)%nat then Some "009"%char  (* tab *)
  else None.

(** A [\uXXXX] escape, the [\u] already read; a high surrogate followed
    by a low one is one code point. *)
Definition unicode_escape (s : string) : option (string * string) :=
  match hex4 s with
  | Some (cp, rest) =>
      if (55296 <=? cp)%N && (cp <=? 56319)%N then
        match rest with
        | String b (String u rest') =>
            if Ascii.eqb b backslash && Ascii.eqb u "u" then
              match hex4 rest' with
              | Some (lo, rest'') =>
                  if (56320 <=? lo)%N && (lo <=? 57343)%N
                  then Some (utf8 (65536 + (cp - 55296) * 1024 + (lo - 56320)), rest'')
                  else Some (utf8 cp, rest)
              | None => Some (utf8 cp, rest)
              end
            else Some (utf8 cp, rest)
        | _ => Some (utf8 cp, rest)
        end
      else Some (utf8 cp, rest)
  | None => None
  end.

(** The text of a string literal, the opening quote already read, and
    what follows the closing quote. *)
Fixpoint scan_string (fuel : nat) (s : string) : option (string * string) :=
  match fuel with
  | O => None
  | S fuel' =>
      match s with
      | EmptyString => None
      | String c s' =>
          if Ascii.eqb c dquote then Some (EmptyString, s')
          else if Ascii.eqb c backslash then
            match s' with
            | String e s'' =>
                match simple_escape e with
                | Some ch =>
                    match scan_string fuel' s'' with
                    | Some (t, r) => Some (String ch t, r)
                    | None => None
                    end
                | None =>
                    if Ascii.eqb e "u" then
                      match unicode_escape s'' with
                      | Some (bytes, rest) =>
                          match scan_string fuel' rest with
                          | Some (t, r) => Some (bytes ++ t, r)
                          | None => None
                          end
                      | None => None
                      end
                    else None
                end
            | EmptyString => None
            end
          else if (code c <? 32)%nat then None
          else
            match scan_string fuel' s' with
            | Some (t, r) => Some (String c t, r)
            | None => None
            end
      end
  end.

(** The fraction [.digits] of a number: the mantissa extended by the
    digits, and how many there are. *)
Definition read_fraction (m : Z) (s : string) : Z * nat * string :=
  match s with
  | String "." s' =>
      let '(v, n, r) := PyFloat.read_digits m 0 s' in
      match n with
      | O => (m, O, s)
      | _ => (v, n, r)
      end
  | _ => (m, O, s)
  end.

(** A number: an optional minus, an integer part without leading
    zero, an optional fraction with at least one digit, an optional
    exponent with at least one digit.  It is an [int] without fraction
    and exponent, else a [float]. *)
Definition scan_number (s : string) : option (pyval * string) :=
  let '(neg, s0) := match s with String "-" s' => (true, s') | _ => (false, s) end in
  match s0 with
  | String c s0' =>
      if PyFloat.is_digit c then
        let '(ip, s1) :=
          if Ascii.eqb c "0" then (0%Z, s0')
          else let '(v, _, r) := PyFloat.read_digits 0 0 s0 in (v, r) in
        let '(m, nfrac, s2) := read_fraction ip s1 in
        let '(e, s3) := PyFloat.read_exponent s2 in
        if (0 <? nfrac)%nat || negb (String.length s3 =? String.length s2)%nat
        then Some (PFloat (PyFloat.of_decimal neg m (e - Z.of_nat nfrac)), s3)
        else Some (PInt (if neg then - ip else ip), s3)
      else None
  | EmptyString => None
  end.

Definition scan_constant (s : string) : option (pyval * string) :=
  if startswith "null" s then Some (PNone, drop 4 s)
  else if startswith "true" s then Some (PBool true, drop 4 s)
  else if startswith "false" s then Some (PBool false, drop 5 s)
  else if startswith "NaN" s then Some (PFloat S754_nan, drop 3 s)
  else if startswith "Infinity" s then Some (PFloat (S754_infinity false), drop 8 s)
  else if startswith "-Infinity" s then Some (PFloat (S754_infinity true), drop 9 s)
  else scan_number s.

Fixpoint scan_value (fuel : nat) (s : string) : option (pyval * string) :=
  match fuel with
  | O => None
  | S n =>
      match s with
      | String "[" s1 =>
          match skip_ws s1 with
          | String "]" s2 => Some (PList [], s2)
          | s2 =>
              match scan_elements n s2 with
              | Some (l, r) => Some (PList l, r)
              | None => None
              end
          end
      | String "{" s1 =>
          match skip_ws s1 with
          | String "}" s2 => Some (PDict [], s2)
          | s2 =>
              match scan_members n s2 [] with
              | Some (d, r) => Some (PDict d, r)
              | None => None
              end
          end
      | String c s1 =>
          if Ascii.eqb c dquote then
            match scan_string (String.length s) s1 with
            | Some (t, r) => Some (PStr t, r)
            | None => None
            end
          else scan_constant s
      | EmptyString => None
      end
  end

(** The elements of an array from its first value to the closing bracket *)
with scan_elements (fuel : nat) (s : string) : option (list pyval * string) :=
  match fuel with
  | O => None
  | S n =>
      match scan_value n s with
      | Some (v, r) =>
          match skip_ws r with
          | String "," r' =>
              match scan_elements n (skip_ws r') with
              | Some (l, r'') => Some (v :: l, r'')
              | None => None
              end
          | String "]" r' => Some ([v], r')
          | _ => None
          end
      | None => None
      end
  end

(** The members of an object from its first key to the closing brace;
    a repeated key keeps its place and takes the later value. *)
with scan_members (fuel : nat) (s : string) (acc : list (string * pyval))
  : option (list (string * pyval) * string) :=
  match fuel with
  | O => None
  | S n =>
      match s with
      | String q s1 =>
          if Ascii.eqb q dquote then
            match scan_string (String.length s) s1 with
            | Some (key, r) =>
                match skip_ws r with
                | String ":" r1 =>
                    match scan_value n (skip_ws r1) with
                    | Some (v, r2) =>
                        let acc' := dict_set key v acc in
                        match skip_ws r2 with
                        | String "," r3 => scan_members n (skip_ws r3) acc'
                        | String "}" r3 => Some (acc', r3)
                        | _ => None
                        end
                    | None => None
                    end
                | _ => None
                end
            | None => None
            end
          else None
      | EmptyString => None
      end
  end.

Definition JSONDecodeError : exn := Exn "JSONDecodeError" "Expecting value".

(** [json.loads(text)]: one value between optional whitespace *)
Definition loads (text : string) : result pyval :=
  match scan_value (2 * String.length text + 2) (skip_ws text) with
  | Some (v, rest) =>
      match skip_ws rest with
      | EmptyString => Ok v
      | _ => Raise JSONDecodeError
      end
  | None => Raise JSONDecodeError
  end.

End Json.

(** ** A concrete set of collaborators for the worked examples *)

Module Scenario.
Import Py Pandas App.

(** [str] of [None], booleans and integers; the examples format no other
    value that is not text. *)
Definition repr (v : pyval) : string :=
  match v with
  | PNone => "None"
  | PBool true => "True"
  | PBool false => "False"
  | PInt z => pretty z
  | _ => "<object>"
  end.

(** The collaborators of a run: the agent answers [agent], [exec]
    behaves as [exec], JSON is decoded by [Json.loads], tables are built
    from row records only, files go to [/tmp] and every write succeeds. *)
Definition collaborators
           (agent : string -> outcome (list event))
           (exec : string -> namespace -> world -> exec_result)
  : Collaborators :=
  {| run_async := agent;
     json_loads := Json.loads;
     py_repr := repr;
     pd_DataFrame_other :=
       fun _ => Raise (ValueError "DataFrame constructor not properly called!");
     py_exec := exec;
     gettempdir := "/tmp";
     now_stamp := "20240101_120000";
     path_join := fun dir name => dir ++ "/" ++ name;
     to_csv := fun _ _ => Ok tt |}.

(** An agent run that emits one event carrying the whole state *)
Definition answers (state : list (string * string)) : string -> outcome (list event) :=
  fun _ => Ok [Event (Some (Actions state))].

(** An agent run that fails *)
Definition fails (msg : string) : string -> outcome (list event) :=
  fun _ => Raise (Error (RuntimeError msg)).

(** An [exec] of scripts that touch neither their table nor the
    process: they end as [ends] says. *)
Definition script (ends : string -> namespace -> outcome (option PyObject))
  : string -> namespace -> world -> exec_result :=
  fun code ns w => ExecResult (ends code ns) (ns_df ns) w.

(** An [exec] that binds [chart] to an object named after the script *)
Definition draws : string -> namespace -> world -> exec_result :=
  script (fun code _ => Ok (Some (Handle ("chart of " ++ code)))).

Definition idle : world :=
  {| current_df_storage := None; exec_log := []; csv_files := []; loop_running := false |}.

Definition q : string := String Json.dquote EmptyString.

End Scenario.

(** ** The Normalizer as the specification words it *)

Module Spec.
Import PyStr App.

(** [s.endswith(p)] *)
Fixpoint endswith (p s : string) : bool :=
  String.eqb p s ||
  match s with
  | EmptyString => false
  | String _ s' => endswith p s'
  end.

(** A leading fence marker, tagged [sql] or not, is removed. *)
Definition strip_leading_fence (s : string) : string :=
  if startswith "```sql" s then drop 6 s
  else if startswith fence s then drop 3 s
  else s.

(** A trailing fence marker is removed. *)
Definition strip_trailing_fence (s : string) : string :=
  if endswith fence s then take (String.length s - 3) s else s.

(** "return the substring after the last [</thinking_process>] marker
    (trimmed), then strip leading/trailing fence markers" *)
Definition spec_sql_text_normalizer (raw : string) : string :=
  let body := strip (last_piece (split thinking_close raw)) in
  strip (strip_trailing_fence (strip_leading_fence body)).

End Spec.

(** ** The inputs and outputs of the specification's examples *)

Module Examples.
Import Py App.

(** A Markdown table of four lines: header, separator, two data rows *)
Definition four_line_table (sep : string) : string :=
  "a|b" ++ nl ++ sep ++ nl ++ "1|x" ++ nl ++ "2|y".

(** Its two rows, the first column as floats 1.0 and 2.0 *)
Definition two_rows : pyval :=
  PDict [("success", PBool true);
         ("data", PList [PDict [("a", PFloat (PyFloat.to_float64 1)); ("b", PStr "x")];
                         PDict [("a", PFloat (PyFloat.to_float64 2)); ("b", PStr "y")]])].

(** The same table with bordering pipes and padded cells *)
Definition bordered_table : string :=
  "| a | b |" ++ nl ++ "|---|---|" ++ nl ++ "| 1 | x |" ++ nl ++ "| 2 | y |".

(** A fenced code block: the fence with a language tag, the body on
    its own lines, the closing fence *)
Definition fenced_block (tag body : string) : string :=
  "```" ++ tag ++ nl ++ body ++ nl ++ "```".

(** The JSON text of two records, [a] being 1 and 2 *)
Definition json_rows : string :=
  "[{" ++ Scenario.q ++ "a" ++ Scenario.q ++ ":1},{"
       ++ Scenario.q ++ "a" ++ Scenario.q ++ ":2}]".

Definition json_rows_parsed : pyval :=
  PDict [("success", PBool true);
         ("data", PList [PDict [("a", PInt 1)]; PDict [("a", PInt 2)]])].

(** The raw SQL of the normalizer's example *)
Definition fenced_sql : string :=
  "<thinking_process>plan</thinking_process>```sql" ++ nl ++ "SELECT 1" ++ nl ++ "```".

(** A charting script that passes the guard *)
Definition chart_script : string :=
  "```python" ++ nl ++ "import altair as alt" ++ nl ++ "chart = alt.Chart(df)" ++ nl ++ "```".

(** A run whose query failed: the results are plain text. *)
Definition failed_run : Collaborators :=
  Scenario.collaborators
    (Scenario.answers [("sql_query", fenced_sql);
                       ("query_results", "connection refused");
                       ("chart_spec", chart_script)])
    Scenario.draws.

(** A run whose query returned no row *)
Definition empty_run : Collaborators :=
  Scenario.collaborators
    (Scenario.answers [("sql_query", fenced_sql);
                       ("query_results", "[]");
                       ("chart_spec", chart_script)])
    Scenario.draws.

(** A run whose query returned the two rows of the Markdown table *)
Definition table_run : Collaborators :=
  Scenario.collaborators
    (Scenario.answers [("sql_query", fenced_sql);
                       ("query_results", four_line_table "---|---");
                       ("chart_spec", chart_script)])
    Scenario.draws.

(** A run in which the agent raises *)
Definition broken_run : Collaborators :=
  Scenario.collaborators (Scenario.fails "model unavailable") Scenario.draws.

(** The table of [table_run] *)
Definition two_row_frame : Pandas.DataFrame :=
  Pandas.Frame ["a"; "b"]
    [[PFloat (PyFloat.to_float64 1); PStr "x"];
     [PFloat (PyFloat.to_float64 2); PStr "y"]].

(** The process after a successful request, called again from a thread
    in which an event loop is running *)
Definition busy_with_table : App.world :=
  App.World (Some two_row_frame) [] [] true.

End Examples.

(** ** Reading the outcome of a handler *)

Module Outcome.
Import Py Pandas App.

(** The chart of the reply, when the handler returned one *)
Definition chart_of (out : outcome response * world)
  : outcome (option chart_obj) :=
  match fst out with
  | Ok (_, _, chart, _) => Ok chart
  | Raise e => Raise e
  end.

(** The table of the reply *)
Definition table_of (out : outcome response * world)
  : outcome (option DataFrame) :=
  match fst out with
  | Ok (_, df, _, _) => Ok df
  | Raise e => Raise e
  end.

End Outcome.

(** ** Auxiliary definitions for the proofs about fences *)

Module Aux.
Import PyStr App.

(** The length of the run of backquotes at the head of a text *)
Fixpoint ticks (s : string) : nat :=
  match s with
  | String c s' => if Ascii.eqb c "`" then S (ticks s') else O
  | EmptyString => O
  end.

(** The last three lines of the normalizer: what it does to the trimmed
    text that follows the thinking block. *)
Definition fence_step (body : string) : string :=
  if startswith "```sql" body
  then strip (replace fence "" (replace "```sql" "" body))
  else if startswith fence body
  then strip (replace fence "" body)
  else body.

End Aux.

(** ** The model listing script: [check_models.py] *)

Module CheckModels.
Import PyStr Py.

(** One iteration over the pager returned by [client.models.list()]:
    the model names it yields and the exception that ends it, if any. *)
Record pass : Type := Pass { yielded : list string; broke : option exn }.

(** The services the script talks to *)
Class Service : Type := {
  (** [os.getenv("GOOGLE_API_KEY")] *)
  getenv_api_key : option string;
  (** [Client(api_key=api_key)] *)
  make_client : string -> result unit;
  (** [client.models.list()]: how the first and the second [for] loop
      over the pager go, or the exception of the call *)
  models_list : result (pass * pass)
}.

Definition nl : string := String "010"%char EmptyString.

Definition no_key_line : string := "❌ The API Key was not found in bi_agent/.env.".

Definition error_line (e : exn) : string := nl ++ "❌ Error: " ++ exn_str e.

(** The test of the first loop *)
Definition recommended (name : string) : bool :=
  contains "flash" (lower name) || contains "gemini-1.5" (lower name).

Definition recommended_line (name : string) : string :=
  "- " ++ replace "models/" "" name.

(** The first loop: the lines printed and the flag [found_flash] *)
Fixpoint first_loop (names : list string) (found_flash : bool) : list string * bool :=
  match names with
  | [] => ([], found_flash)
  | name :: rest =>
      if recommended name
      then let '(out, found) := first_loop rest true in
           (recommended_line name :: out, found)
      else first_loop rest found_flash
  end.

(** What the script prints, one entry per [print] *)
Definition check_models `{Service} : list string :=
  match getenv_api_key with
  | None => [no_key_line]
  | Some api_key =>
      if nonempty api_key then
        ("✅ API Key found: " ++ take 5 api_key ++ "...") ::
        match make_client api_key with
        | Raise e => [error_line e]
        | Ok _ =>
            (nl ++ " Retrieving a list of available models...") ::
            match models_list with
            | Raise e => [error_line e]
            | Ok (first, second) =>
                (nl ++ "=== List of Recommended Models (Guaranteed to work) ===") ::
                let '(out, found_flash) := first_loop (yielded first) false in
                (out ++
                 match broke first with
                 | Some e => [error_line e]
                 | None =>
                     if found_flash then []
                     else
                       "(No Flash models found. Please see the full list below.)" ::
                       (map (fun name => ("- " ++ name)%string) (yielded second) ++
                        match broke second with
                        | Some e => [error_line e]
                        | None => []
                        end)
                 end)%list
            end
        end
      else [no_key_line]
  end.

(** A service with a key whose listing yields the same names in both
    loops *)
Definition listing (api_key : string) (names : list string) : Service :=
  {| getenv_api_key := Some api_key;
     make_client := fun _ => Ok tt;
     models_list := Ok (Pass names None, Pass names None) |}.

End CheckModels.

(** ** Further scenarios *)

Module MoreExamples.
Import Py Pandas App Examples.

(** A run that reports the SQL only: no [query_results] entry *)
Definition silent_run : Collaborators :=
  Scenario.collaborators (Scenario.answers [("sql_query", fenced_sql)]) Scenario.draws.

(** A run whose result text is the JSON number 42 *)
Definition scalar_run : Collaborators :=
  Scenario.collaborators
    (Scenario.answers [("sql_query", fenced_sql); ("query_results", "42")])
    Scenario.draws.

(** A run like [table_run] whose script raises *)
Definition crashing_script_run : Collaborators :=
  Scenario.collaborators
    (Scenario.answers [("sql_query", fenced_sql);
                       ("query_results", four_line_table "---|---");
                       ("chart_spec", chart_script)])
    (Scenario.script
       (fun _ _ => Raise (Error (Exn "NameError" "name 'dff' is not defined")))).

(** A run like [table_run] whose script calls [sys.exit(1)] *)
Definition exiting_script_run : Collaborators :=
  Scenario.collaborators
    (Scenario.answers [("sql_query", fenced_sql);
                       ("query_results", four_line_table "---|---");
                       ("chart_spec", chart_script)])
    (Scenario.script (fun _ _ => Raise (Exit (Exn "SystemExit" "1")))).

(** A run like [table_run] whose script drops every row of [df] in
    place ([df.drop(df.index, inplace=True)]), stores a table in the
    slot and binds [chart]. *)
Definition meddling_script_run : Collaborators :=
  Scenario.collaborators
    (Scenario.answers [("sql_query", fenced_sql);
                       ("query_results", four_line_table "---|---");
                       ("chart_spec", chart_script)])
    (fun code ns w =>
       ExecResult (Ok (Some (Handle ("chart of " ++ code))))
                  (Frame (df_columns (ns_df ns)) [])
                  (World (Some (ns_df ns)) (exec_log w) (csv_files w) (loop_running w))).

(** Collaborators whose disk is full: every CSV write fails. *)
Definition full_disk : Collaborators :=
  {| run_async := Scenario.answers [];
     json_loads := Json.loads;
     py_repr := Scenario.repr;
     pd_DataFrame_other :=
       fun _ => Raise (ValueError "DataFrame constructor not properly called!");
     py_exec := Scenario.draws;
     gettempdir := "/tmp";
     now_stamp := "20240101_120000";
     path_join := fun dir name => dir ++ "/" ++ name;
     to_csv := fun _ _ => Raise (Exn "OSError" "No space left on device") |}.

(** The process with the two-row table stored *)
Definition with_table : world := World (Some two_row_frame) [] [] false.

(** The script of [chart_script] once cleaned *)
Definition cleaned_script : string :=
  "import altair as alt" ++ nl ++ "chart = alt.Chart(df)".

End MoreExamples.

(** ** Notions used to state further properties of [app.py] *)

Module Notions.
Import PyStr Py Pandas App.

(** The entries of all state deltas, in arrival order *)
Definition flat_deltas (events : list event) : list (string * string) :=
  concat (map (fun ev => match actions ev with
                         | Some a => state_delta a
                         | None => []
                         end) events).

(** The value of the last entry for a key *)
Fixpoint assoc_last (k : string) (l : list (string * string)) : option string :=
  match l with
  | [] => None
  | (k', v) :: l' =>
      match assoc_last k l' with
      | Some v' => Some v'
      | None => if String.eqb k' k then Some v else None
      end
  end.

(** The distinct headers, in order of first appearance *)
Definition table_keys (headers : list string) : list string :=
  fold_left add_column headers [].

(** The keys of a row record *)
Definition row_keys (row : pyval) : option (list string) :=
  match row with
  | PDict d => Some (map fst d)
  | _ => None
  end.

(** The foreign code of a request ends with no [Exit]: the agent run on
    the question does not, and no script does. *)
Definition no_exit `{Collaborators} (message : string) : Prop :=
  (forall b, run_async message <> Raise (Exit b))
  /\ (forall code ns w b, script_chart (py_exec code ns w) <> Raise (Exit b)).

(** The world after [exec] ran a script: the slot and the files as the
    script left them, the script on the log. *)
Definition after_exec `{Collaborators} (w : world) (code : string) (ns : namespace)
  : world :=
  let ran := py_exec code ns w in
  World (current_df_storage (script_world ran)) (exec_log w ++ [code])%list
        (csv_files (script_world ran)) (loop_running w).

(** What the coroutine of a request may do to the process: hand at most
    one script to [exec]; when it hands none, nothing at all. *)
Definition at_most_exec (w w' : world) : Prop :=
  loop_running w' = loop_running w
  /\ (exec_log w' = exec_log w
      \/ exists code : string, exec_log w' = (exec_log w ++ [code])%list)
  /\ (exec_log w' = exec_log w -> w' = w).

(** What the synchronous handler may do: the same, and set the slot. *)
Definition at_most_exec_and_slot (w w' : world) : Prop :=
  loop_running w' = loop_running w
  /\ (exec_log w' = exec_log w
      \/ exists code : string, exec_log w' = (exec_log w ++ [code])%list)
  /\ (exec_log w' = exec_log w -> csv_files w' = csv_files w).

(** The world after one more file was written *)
Definition after_write (w : world) (path : string) (df : DataFrame) : world :=
  World (current_df_storage w) (exec_log w) (csv_files w ++ [(path, df)])%list
        (loop_running w).


(** The path [download_query_results] writes to *)
Definition csv_path_now `{Collaborators} : string :=
  path_join gettempdir ("query_results_" ++ now_stamp ++ ".csv").

(** Empty or whitespace-only text *)
Definition blank (s : string) : bool := forallb is_space (list_ascii_of_string s).

End Notions.

(** * Properties *)

(** ** Facts about the text operations *)

Module PyStrFacts.
Import PyStr.

Lemma app_nil s : "" ++ s = s.
Proof. done. Qed.

Lemma app_cons c s t : String c s ++ t = String c (s ++ t).
Proof. done. Qed.

Lemma app_assoc s t u : (s ++ t) ++ u = s ++ t ++ u.
Proof. induction s as [|c s IH]; [done|]. rewrite !app_cons. by f_equal. Qed.

Lemma app_nil_r s : s ++ "" = s.
Proof. induction s as [|c s IH]; [done|]. rewrite app_cons. by f_equal. Qed.

Lemma prefix_nil s : String.prefix "" s = true.
Proof. by destruct s. Qed.

Lemma prefix_cons c p d s :
  String.prefix (String c p) (String d s) = Ascii.eqb c d && String.prefix p s.
Proof.
  simpl. destruct (ascii_dec c d) as [->|Hne].
  - by rewrite Ascii.eqb_refl.
  - apply Ascii.eqb_neq in Hne. by rewrite Hne.
Qed.

Lemma prefix_app_split p s :
  String.prefix p s = true -> s = p ++ drop (String.length p) s.
Proof.
  revert s. induction p as [|c p IH]; intros s Hp.
  - by destruct s.
  - destruct s as [|d s]; [done|].
    rewrite prefix_cons in Hp. apply andb_true_iff in Hp as [Hc Hp].
    apply Ascii.eqb_eq in Hc as ->. rewrite app_cons. simpl. f_equal. by apply IH.
Qed.

Lemma prefix_app_l p q s :
  String.prefix (p ++ q) s = true -> String.prefix p s = true.
Proof.
  revert s. induction p as [|c p IH]; intros s Hp; [apply prefix_nil|].
  destruct s as [|d s]; [done|].
  rewrite app_cons in Hp. rewrite prefix_cons in Hp |- *.
  apply andb_true_iff in Hp as [-> Hp]. simpl. by apply IH.
Qed.

Lemma prefix_app_r p s t :
  String.prefix p s = true -> String.prefix p (s ++ t) = true.
Proof.
  revert s. induction p as [|c p IH]; intros s Hp; [apply prefix_nil|].
  destruct s as [|d s]; [done|].
  rewrite app_cons. rewrite prefix_cons in Hp |- *.
  apply andb_true_iff in Hp as [-> Hp]. simpl. by apply IH.
Qed.

(** *** [in] *)

Lemma contains_prefix p s : String.prefix p s = true -> contains p s = true.
Proof. intros Hp. destruct s; simpl in *; by rewrite Hp. Qed.

Lemma contains_cons p c s :
  contains p (String c s) = String.prefix p (String c s) || contains p s.
Proof. done. Qed.

Lemma contains_false_prefix p s : contains p s = false -> String.prefix p s = false.
Proof.
  intros Hc. destruct (String.prefix p s) eqn:Hp; [|done].
  by rewrite (contains_prefix _ _ Hp) in Hc.
Qed.

Lemma contains_app_r p s t : contains p s = true -> contains p (s ++ t) = true.
Proof.
  induction s as [|c s IH]; intros Hc.
  - simpl in Hc. rewrite orb_false_r in Hc.
    apply contains_prefix. by apply (prefix_app_r p "" t).
  - rewrite contains_cons in Hc. rewrite app_cons, contains_cons.
    apply orb_true_iff in Hc as [Hp|Hc].
    + apply (prefix_app_r _ _ t) in Hp. rewrite app_cons in Hp. by rewrite Hp.
    + rewrite (IH Hc). apply orb_true_r.
Qed.

Lemma contains_app_l p s t : contains p t = true -> contains p (s ++ t) = true.
Proof.
  intros Hc. induction s as [|c s IH]; [done|].
  rewrite app_cons, contains_cons, IH. apply orb_true_r.
Qed.

(** *** [strip] *)

Lemma lstrip_by_suffix p s : exists t, s = t ++ lstrip_by p s.
Proof.
  induction s as [|c s [t IH]]; [by exists ""|].
  simpl. destruct (p c).
  - exists (String c t). rewrite app_cons. by f_equal.
  - by exists "".
Qed.

Lemma rstrip_by_prefix p s : exists t, s = rstrip_by p s ++ t.
Proof.
  induction s as [|c s [t IH]]; [by exists ""|].
  simpl. destruct (rstrip_by p s) as [|d r] eqn:Hr.
  - destruct (p c).
    + by exists (String c s).
    + by exists s.
  - exists t. rewrite app_cons. f_equal. exact IH.
Qed.

Lemma rstrip_by_idem p s : rstrip_by p (rstrip_by p s) = rstrip_by p s.
Proof.
  induction s as [|c s IH]; [done|].
  simpl. destruct (rstrip_by p s) as [|d r] eqn:Hr.
  - destruct (p c) eqn:Hc; [done|]. simpl. by rewrite Hc.
  - simpl in *. by rewrite IH.
Qed.

Lemma lstrip_by_head p c s : p c = false -> lstrip_by p (String c s) = String c s.
Proof. intros Hc. simpl. by rewrite Hc. Qed.

Lemma rstrip_by_head p c s :
  p c = false -> exists r, rstrip_by p (String c s) = String c r.
Proof.
  intros Hc. simpl. destruct (rstrip_by p s) as [|d r].
  - rewrite Hc. by exists "".
  - by eexists.
Qed.

Lemma lstrip_by_cases p s :
  lstrip_by p s = "" \/ exists c r, lstrip_by p s = String c r /\ p c = false.
Proof.
  induction s as [|c s IH]; [by left|].
  simpl. destruct (p c) eqn:Hc; [done|]. right. by exists c, s.
Qed.

Lemma lstrip_rstrip_lstrip p s :
  lstrip_by p (rstrip_by p (lstrip_by p s)) = rstrip_by p (lstrip_by p s).
Proof.
  destruct (lstrip_by_cases p s) as [->|(c & r & -> & Hc)]; [done|].
  destruct (rstrip_by_head p c r Hc) as [r' ->].
  by apply lstrip_by_head.
Qed.

Lemma strip_idem s : strip (strip s) = strip s.
Proof.
  unfold strip. by rewrite lstrip_rstrip_lstrip, rstrip_by_idem.
Qed.

Lemma contains_lstrip_by q p s :
  contains p (lstrip_by q s) = true -> contains p s = true.
Proof.
  destruct (lstrip_by_suffix q s) as [t Ht]. intros Hc.
  rewrite Ht. by apply contains_app_l.
Qed.

Lemma contains_rstrip_by q p s :
  contains p (rstrip_by q s) = true -> contains p s = true.
Proof.
  destruct (rstrip_by_prefix q s) as [t Ht]. intros Hc.
  rewrite Ht. by apply contains_app_r.
Qed.

Lemma contains_strip p s : contains p (strip s) = true -> contains p s = true.
Proof.
  unfold strip. intros Hc.
  by apply (contains_lstrip_by is_space), (contains_rstrip_by is_space).
Qed.

Lemma contains_strip_false p s : contains p s = false -> contains p (strip s) = false.
Proof.
  intros Hc. destruct (contains p (strip s)) eqn:Hs; [|done].
  by rewrite (contains_strip _ _ Hs) in Hc.
Qed.

(** *** [drop] *)

Lemma drop_length_le k s : String.length (drop k s) <= String.length s.
Proof.
  revert k. induction s as [|c s IH]; intros [|k]; simpl; try lia.
  specialize (IH k). lia.
Qed.

Lemma drop_app_length p s : drop (String.length p) (p ++ s) = s.
Proof. induction p as [|c p IH]; [done|]. by rewrite app_cons. Qed.

(** *** [split] *)

Lemma split_from_drop sep k s : split_from sep k s = split_from sep 0 (drop k s).
Proof.
  revert k. induction s as [|c s IH]; intros [|k]; try done.
  simpl. apply IH.
Qed.

Lemma split_from_match sep c s :
  String.prefix sep (String c s) = true ->
  split_from sep 0 (String c s) =
    let '(h, t) := split_from sep 0 (drop (String.length sep - 1) s) in ("", h :: t).
Proof.
  intros Hp. cbn [split_from]. rewrite Hp.
  by rewrite (split_from_drop sep (String.length sep - 1) s).
Qed.

Lemma split_from_step sep c s :
  String.prefix sep (String c s) = false ->
  split_from sep 0 (String c s) =
    let '(h, t) := split_from sep 0 s in (String c h, t).
Proof. intros Hp. cbn [split_from]. by rewrite Hp. Qed.

Lemma split_from_none sep s :
  contains sep s = false -> split_from sep 0 s = (s, []).
Proof.
  induction s as [|c s IH]; [done|].
  rewrite contains_cons. intros [Hp Hc]%orb_false_iff.
  rewrite (split_from_step _ _ _ Hp), (IH Hc). done.
Qed.

Lemma last_cons_ne (h : string) t : t <> [] -> List.last (h :: t) "" = List.last t "".
Proof. by destruct t. Qed.

(** The last piece of a split holds no separator; when the text holds
    one, the last piece is what follows its last occurrence. *)
Lemma split_from_last sep s :
  sep <> "" ->
  let '(h, t) := split_from sep 0 s in
  contains sep (List.last (h :: t) "") = false
  /\ (contains sep s = true ->
      t <> [] /\ exists pre, s = pre ++ sep ++ List.last (h :: t) "").
Proof.
  intros Hsep.
  induction s as [s IH] using (induction_ltof1 _ String.length).
  unfold ltof in IH.
  destruct s as [|c s].
  - simpl. destruct sep; [done|]. by split.
  - destruct (String.prefix sep (String c s)) eqn:Hp.
    + rewrite (split_from_match _ _ _ Hp).
      assert (Hrest : String c s = sep ++ drop (String.length sep - 1) s).
      { rewrite (prefix_app_split _ _ Hp) at 1. f_equal.
        destruct sep as [|a sep]; [done|]. simpl. by rewrite Nat.sub_0_r. }
      set (rest := drop (String.length sep - 1) s) in *.
      assert (Hlt : String.length rest < String.length (String c s)).
      { pose proof (drop_length_le (String.length sep - 1) s). simpl.
        unfold rest. lia. }
      specialize (IH rest Hlt).
      destruct (split_from sep 0 rest) as [h t] eqn:Hs.
      destruct IH as [Hlast Hsome].
      rewrite (last_cons_ne "" (h :: t)) by done.
      split; [done|]. intros _. split; [done|].
      destruct (contains sep rest) eqn:Hc.
      * destruct (Hsome eq_refl) as [_ [pre Hpre]].
        exists (sep ++ pre). rewrite Hrest, app_assoc. by rewrite Hpre at 1.
      * rewrite (split_from_none _ _ Hc) in Hs. injection Hs as <- <-.
        exists "". by rewrite app_nil.
    + rewrite (split_from_step _ _ _ Hp).
      assert (Hlt : String.length s < String.length (String c s)) by (simpl; lia).
      specialize (IH s Hlt).
      destruct (split_from sep 0 s) as [h t] eqn:Hs.
      destruct IH as [Hlast Hsome].
      destruct (contains sep s) eqn:Hc.
      * destruct (Hsome eq_refl) as [Ht [pre Hpre]].
        rewrite (last_cons_ne (String c h) t Ht).
        rewrite (last_cons_ne h t Ht) in Hlast, Hpre.
        split; [done|]. intros _. split; [done|].
        exists (String c pre). rewrite app_cons. by f_equal.
      * rewrite (split_from_none _ _ Hc) in Hs. injection Hs as <- <-.
        cbn [List.last]. rewrite contains_cons, Hp, Hc. by split.
Qed.

Lemma last_piece_split sep s :
  sep <> "" ->
  contains sep (last_piece (split sep s)) = false
  /\ (contains sep s = true ->
      exists pre, s = pre ++ sep ++ last_piece (split sep s)).
Proof.
  intros Hsep. unfold last_piece, split.
  pose proof (split_from_last sep s Hsep) as Hl.
  destruct (split_from sep 0 s) as [h t].
  destruct Hl as [Hlast Hsome]. split; [done|].
  intros Hc. by destruct (Hsome Hc).
Qed.

Lemma last_piece_split_none sep s :
  contains sep s = false -> last_piece (split sep s) = s.
Proof.
  intros Hc. unfold last_piece, split. by rewrite (split_from_none _ _ Hc).
Qed.

Lemma split_length_none sep s :
  contains sep s = false -> List.length (split sep s) = 1.
Proof. intros Hc. unfold split. by rewrite (split_from_none _ _ Hc). Qed.

End PyStrFacts.

(** ** Facts about [replace] and fence markers *)

Module ReplaceFacts.
Import PyStr PyStrFacts Aux App.

Lemma replace_from_drop old new k s :
  replace_from old new k s = replace_from old new 0 (drop k s).
Proof.
  revert k. induction s as [|c s IH]; intros [|k]; try done.
  simpl. apply IH.
Qed.

Lemma replace_match old new c s :
  String.prefix old (String c s) = true ->
  replace old new (String c s)
  = new ++ replace old new (drop (String.length old - 1) s).
Proof.
  intros Hp. unfold replace. cbn [replace_from]. rewrite Hp.
  by rewrite (replace_from_drop old new (String.length old - 1) s).
Qed.

Lemma replace_step old new c s :
  String.prefix old (String c s) = false ->
  replace old new (String c s) = String c (replace old new s).
Proof. intros Hp. unfold replace. cbn [replace_from]. by rewrite Hp. Qed.

Lemma ticks_fence s : ticks (fence ++ s) = 3 + ticks s.
Proof. done. Qed.

Lemma prefix_fence_ticks s : String.prefix fence s = (3 <=? ticks s)%nat.
Proof.
  unfold fence.
  destruct s as [|a [|b [|c s]]]; cbn [ticks]; rewrite ?prefix_cons, ?prefix_nil;
    try done;
    rewrite ?(Ascii.eqb_sym "`"%char);
    repeat match goal with
           | |- context [Ascii.eqb ?x "`"] => destruct (Ascii.eqb x "`")
           end; done.
Qed.

(** Deleting every fence marker leaves no fence marker: a run of
    backquotes keeps fewer than three of them, and runs never merge. *)
Lemma replace_fence_invariant s :
  ticks (replace fence "" s) <= ticks s
  /\ ticks (replace fence "" s) < 3
  /\ contains fence (replace fence "" s) = false.
Proof.
  induction s as [s IH] using (induction_ltof1 _ String.length).
  unfold ltof in IH.
  destruct s as [|c s]; [simpl; repeat split; lia|].
  destruct (String.prefix fence (String c s)) eqn:Hp.
  - rewrite (replace_match _ _ _ _ Hp), app_nil.
    pose proof (prefix_app_split _ _ Hp) as Hs.
    change (drop (String.length fence) (String c s)) with (drop 2 s) in Hs.
    change (String.length fence - 1) with 2.
    assert (Hlt : String.length (drop 2 s) < String.length (String c s)).
    { pose proof (drop_length_le 2 s). cbn [String.length]. lia. }
    destruct (IH _ Hlt) as (Hle & Hlt3 & Hc).
    rewrite Hs, ticks_fence. repeat split; [lia|done|done].
  - rewrite (replace_step _ _ _ _ Hp).
    assert (Hlt : String.length s < String.length (String c s)) by (simpl; lia).
    destruct (IH _ Hlt) as (Hle & Hlt3 & Hc).
    rewrite prefix_fence_ticks in Hp. apply Nat.leb_gt in Hp.
    rewrite contains_cons, Hc, orb_false_r, prefix_fence_ticks.
    cbn [ticks] in *. destruct (Ascii.eqb c "`").
    + repeat split; try lia. apply Nat.leb_gt. lia.
    + repeat split; lia.
Qed.

Lemma replace_fence_clean s : contains fence (replace fence "" s) = false.
Proof. apply replace_fence_invariant. Qed.

End ReplaceFacts.

(** ** The SQL text normalizer *)

Module NormalizerFacts.
Import PyStr PyStrFacts ReplaceFacts Aux App.

Lemma thinking_close_nonempty : thinking_close <> "".
Proof. done. Qed.

Lemma startswith_sql_fence s : startswith "```sql" s = true -> startswith fence s = true.
Proof. apply (prefix_app_l fence "sql"). Qed.

Lemma normalizer_no_marker raw :
  contains thinking_close raw = false ->
  sql_text_normalizer raw = fence_step (strip raw).
Proof. intros Hc. unfold sql_text_normalizer. by rewrite Hc. Qed.

Lemma normalizer_marker raw :
  contains thinking_close raw = true ->
  sql_text_normalizer raw
  = fence_step (strip (last_piece (split thinking_close raw))).
Proof.
  intros Hc. unfold sql_text_normalizer. rewrite Hc. cbv zeta.
  by rewrite strip_idem.
Qed.

Lemma fence_step_trimmed body : strip body = body -> strip (fence_step body) = fence_step body.
Proof.
  intros Hb. unfold fence_step.
  repeat case_match; by rewrite ?strip_idem.
Qed.

Lemma normalizer_trimmed raw : strip (sql_text_normalizer raw) = sql_text_normalizer raw.
Proof.
  destruct (contains thinking_close raw) eqn:Hc.
  - rewrite (normalizer_marker _ Hc). apply fence_step_trimmed, strip_idem.
  - rewrite (normalizer_no_marker _ Hc). apply fence_step_trimmed, strip_idem.
Qed.

Lemma fence_step_no_fence body : startswith fence body = false -> fence_step body = body.
Proof.
  intros Hf. unfold fence_step. rewrite Hf.
  destruct (startswith "```sql" body) eqn:Hs; [|done].
  by rewrite (startswith_sql_fence _ Hs) in Hf.
Qed.

Lemma fence_step_fenced body :
  startswith fence body = true -> contains fence (fence_step body) = false.
Proof.
  intros Hf. unfold fence_step. rewrite Hf.
  destruct (startswith "```sql" body);
    apply contains_strip_false, replace_fence_clean.
Qed.

Lemma fence_step_fenced_eq body :
  startswith fence body = true ->
  fence_step body
  = strip (replace fence ""
             (if startswith "```sql" body then replace "```sql" "" body else body)).
Proof.
  intros Hf. unfold fence_step. rewrite Hf. by destruct (startswith "```sql" body).
Qed.

(** The raw SQL of the specification's example *)
Lemma normalizer_example :
  sql_text_normalizer
    ("<thinking_process>plan</thinking_process>```sql" ++ nl ++ "SELECT 1" ++ nl ++ "```")
  = "SELECT 1".
Proof. vm_compute. reflexivity. Qed.

(** C6, as the specification words it (the text after the last
    thinking marker, trimmed, with its leading and its trailing fence
    marker stripped), is not what the normalizer computes: a trailing
    fence without a leading one is kept. *)
Lemma normalizer_keeps_trailing_fence :
  sql_text_normalizer "SELECT 1```" = "SELECT 1```"
  /\ Spec.spec_sql_text_normalizer "SELECT 1```" = "SELECT 1"
  /\ sql_text_normalizer "SELECT 1```" <> Spec.spec_sql_text_normalizer "SELECT 1```".
Proof. vm_compute. repeat split; [reflexivity..|discriminate]. Qed.

(** C6 (amended).  The normalizer takes the text after the last
    [</thinking_process>] marker (the whole text when there is none) and
    trims it.  When the trimmed text does not start with a fence marker
    it is the result, whatever it ends with.  When it starts with one,
    every occurrence of the fence marker is deleted (after every
    occurrence of the [sql]-tagged marker when the text starts with
    that), the result is trimmed again and holds no fence marker at
    all.  The specification's example yields [SELECT 1]. *)
Theorem normalizer_behaviour :
  (forall raw, contains thinking_close raw = true ->
     exists pre rest,
       raw = pre ++ thinking_close ++ rest
       /\ contains thinking_close rest = false
       /\ sql_text_normalizer raw = fence_step (strip rest))
  /\ (forall raw, contains thinking_close raw = false ->
        sql_text_normalizer raw = fence_step (strip raw))
  /\ (forall body, startswith fence body = false -> fence_step body = body)
  /\ (forall body, startswith fence body = true ->
        fence_step body
        = strip (replace fence ""
                   (if startswith "```sql" body then replace "```sql" "" body else body))
        /\ contains fence (fence_step body) = false)
  /\ sql_text_normalizer
       ("<thinking_process>plan</thinking_process>```sql" ++ nl ++ "SELECT 1" ++ nl ++ "```")
     = "SELECT 1".
Proof.
  split; [|split; [|split; [|split]]].
  - intros raw Hc.
    destruct (last_piece_split thinking_close raw thinking_close_nonempty)
      as [Hlast Hsome].
    destruct (Hsome Hc) as [pre Hpre].
    exists pre, (last_piece (split thinking_close raw)).
    split; [done|]. split; [done|]. by apply normalizer_marker.
  - apply normalizer_no_marker.
  - apply fence_step_no_fence.
  - intros body Hf. split; [by apply fence_step_fenced_eq|by apply fence_step_fenced].
  - apply normalizer_example.
Qed.

Lemma normalizer_behaviour_witness :
  fence_step "SELECT 1```" = "SELECT 1```"
  /\ contains fence (fence_step "```SELECT '```'") = false
  /\ sql_text_normalizer " SELECT 1 " = fence_step (strip " SELECT 1 ")
  /\ exists pre rest,
       "a</thinking_process>b" = pre ++ thinking_close ++ rest
       /\ contains thinking_close rest = false
       /\ sql_text_normalizer "a</thinking_process>b" = fence_step (strip rest).
Proof.
  destruct normalizer_behaviour as (Hlast & Hnone & Hkeep & Hdel & _).
  split; [apply Hkeep; reflexivity|].
  split; [apply Hdel; reflexivity|].
  split; [apply Hnone; reflexivity|].
  apply Hlast. reflexivity.
Defined.

(** C7.  A text that is an output of the normalizer and holds neither
    the thinking marker nor a fence marker is a fixed point: normalizing
    it again returns it unchanged. *)
Theorem normalizer_fixed_point s :
  (exists raw, s = sql_text_normalizer raw) ->
  contains thinking_close s = false ->
  contains fence s = false ->
  sql_text_normalizer s = s.
Proof.
  intros [raw ->] Hm Hf.
  rewrite (normalizer_no_marker _ Hm), normalizer_trimmed.
  apply fence_step_no_fence. by apply contains_false_prefix.
Qed.

Lemma normalizer_fixed_point_witness :
  sql_text_normalizer "SELECT 1" = "SELECT 1".
Proof.
  apply normalizer_fixed_point; [|reflexivity|reflexivity].
  exists ("<thinking_process>plan</thinking_process>```sql" ++ nl ++ "SELECT 1" ++ nl ++ "```").
  reflexivity.
Defined.

(** The two side conditions of the fixed point are needed: deleting
    fence markers can bring a thinking marker together, and a second
    pass then cuts the text. *)
Remark normalizer_second_pass_may_differ :
  sql_text_normalizer "```</thinking_```process>x" = "</thinking_process>x"
  /\ sql_text_normalizer "</thinking_process>x" = "x".
Proof. vm_compute. by split. Qed.

End NormalizerFacts.

(** ** The request handlers and the download action *)

Module HandlerFacts.
Import PyStr Py Pandas App Notions.

Section WithCollaborators.
Context `{Collaborators}.

Ltac run :=
  unfold bind, lift, lift_outcome, ret, raise, try_except, set_storage, get_storage.

(** The outer handler of [process_request_async] turns every exception
    of the body into a reply; an [Exit] of the body goes through. *)
Lemma process_request_async_cases message w :
  (exists r w', process_request_async message w = (Ok r, w'))
  \/ (exists b w',
        process_request_async_body message w = (Raise (Exit b), w')
        /\ process_request_async message w = (Raise (Exit b), w')).
Proof.
  unfold process_request_async, try_except.
  destruct (process_request_async_body message w) as [[r|[e|b]] w']; run; eauto 6.
Qed.

Lemma process_request_cases message w :
  (exists r w', process_request message w = (Ok r, w'))
  \/ (exists b w',
        process_request_body message w = (Raise (Exit b), w')
        /\ process_request message w = (Raise (Exit b), w')).
Proof.
  unfold process_request, try_except.
  destruct (process_request_body message w) as [[r|[e|b]] w']; run; eauto 6.
Qed.

Lemma process_request_async_no_error message w e w' :
  process_request_async message w <> (Raise (Error e), w').
Proof.
  destruct (process_request_async_cases message w)
    as [(r & w1 & ->)|(b & w1 & _ & ->)]; discriminate.
Qed.

Lemma process_request_no_error message w e w' :
  process_request message w <> (Raise (Error e), w').
Proof.
  destruct (process_request_cases message w)
    as [(r & w1 & ->)|(b & w1 & _ & ->)]; discriminate.
Qed.

(** The body of [process_request_async] once the agent has answered *)
Lemma body_after_run message events w :
  nonempty (strip message) = true ->
  run_async message = Ok events ->
  process_request_async_body message w
  = (let results := collect_state events in
     let sql_query := sql_text_normalizer (default "" (results !! "sql_query")) in
     let query_results := result_parser (default "{}" (results !! "query_results")) in
     bind (lift (py_get query_results "success" (PBool false))) (fun success =>
     if negb (truthy success) then
       bind (lift (py_get query_results "error" (PStr "Unknown error"))) (fun error_msg =>
       ret (error_sql sql_query (py_str error_msg), None, None,
            "Error executing query: " ++ py_str error_msg))
     else
       bind (lift (py_get query_results "data" (PList []))) (fun data_list =>
       if negb (truthy data_list) then
         ret (sql_query, Some empty_frame, None,
              "The query executed successfully but returned no data.")
       else
         bind (lift (pd_DataFrame data_list)) (fun df =>
         bind (chart_synthesizer (default "" (results !! "chart_spec")) df) (fun drawn =>
         ret (sql_query, Some (snd drawn), option_map ExecChart (fst drawn),
              final_insights_of (default "" (results !! "trend_insights"))
                                (default "" (results !! "explanation_text")))))))) w.
Proof.
  intros Hm Hr. unfold process_request_async_body, run_bi_pipeline_async.
  rewrite Hm. cbn [negb]. unfold bind at 1, lift_outcome at 1. rewrite Hr.
  unfold bind at 1, ret at 1. reflexivity.
Qed.

(** What [process_request] does with a reply of the coroutine that
    carries no table *)
Lemma process_request_no_table message w sql_query df chart explanation w1 :
  loop_running w = false ->
  process_request_async message w = (Ok (sql_query, df, chart, explanation), w1) ->
  no_table df = true ->
  process_request message w
  = (Ok (sql_query, df, Some (TextChart create_no_data_chart), explanation),
     World None (exec_log w1) (csv_files w1) (loop_running w1)).
Proof.
  intros Hl Hr Hn. unfold process_request, process_request_body, try_except, asyncio_run.
  unfold bind at 1. rewrite Hl, Hr, Hn. reflexivity.
Qed.

Lemma process_request_table message w sql_query df chart explanation w1 :
  loop_running w = false ->
  process_request_async message w = (Ok (sql_query, df, chart, explanation), w1) ->
  no_table df = false ->
  process_request message w
  = (Ok (sql_query, df, chart, explanation),
     World df (exec_log w1) (csv_files w1) (loop_running w1)).
Proof.
  intros Hl Hr Hn. unfold process_request, process_request_body, try_except, asyncio_run.
  unfold bind at 1. rewrite Hl, Hr, Hn. reflexivity.
Qed.

(** An [Exit] that leaves the coroutine leaves [process_request] too. *)
Lemma process_request_exit message w b w1 :
  loop_running w = false ->
  process_request_async message w = (Raise (Exit b), w1) ->
  process_request message w = (Raise (Exit b), w1).
Proof.
  intros Hl Hr. unfold process_request, process_request_body, try_except, asyncio_run.
  unfold bind at 1. by rewrite Hl, Hr.
Qed.

Lemma process_request_loop_running message w :
  loop_running w = true ->
  process_request message w
  = (Ok (error_reply
           (RuntimeError "asyncio.run() cannot be called from a running event loop")), w).
Proof.
  intros Hl. unfold process_request, process_request_body, try_except, asyncio_run.
  unfold bind at 1. rewrite Hl. reflexivity.
Qed.

(** The slot after a call of [process_request] that returned a reply *)
Lemma process_request_slot message w sql_query df chart explanation w' :
  loop_running w = false ->
  process_request message w = (Ok (sql_query, df, chart, explanation), w') ->
  current_df_storage w' = (if no_table df then None else df).
Proof.
  intros Hl Hrun.
  destruct (process_request_async_cases message w)
    as [([[[sql0 df0] chart0] expl0] & w1 & Hr)|(b & w1 & _ & Hr)].
  - destruct (no_table df0) eqn:Hn.
    + rewrite (process_request_no_table _ _ _ _ _ _ _ Hl Hr Hn) in Hrun.
      injection Hrun as <- <- <- <- <-. by rewrite Hn.
    + rewrite (process_request_table _ _ _ _ _ _ _ Hl Hr Hn) in Hrun.
      injection Hrun as <- <- <- <- <-. by rewrite Hn.
  - by rewrite (process_request_exit _ _ _ _ Hl Hr) in Hrun.
Qed.

(** What the synthesizer does with a script that passes the guard: the
    script runs once; whatever exception it raises is dropped with the
    chart; an [Exit] goes on. *)
Lemma chart_synthesizer_accepted chart_spec df w :
  nonempty chart_spec = true ->
  chart_rejected (clean_chart_script chart_spec) = false ->
  let code := clean_chart_script chart_spec in
  let ns := Namespace df (to_records df) in
  let ran := py_exec code ns w in
  chart_synthesizer chart_spec df w
  = (match script_chart ran with
     | Ok chart => Ok (chart, script_df ran)
     | Raise (Error _) => Ok (None, script_df ran)
     | Raise (Exit b) => Raise (Exit b)
     end,
     after_exec w code ns).
Proof.
  intros Hn Hg. cbv zeta. unfold chart_synthesizer, after_exec. rewrite Hn, Hg.
  unfold bind at 1, do_exec at 1. cbn [fst snd]. run.
  by destruct (script_chart _) as [chart|[e|b]].
Qed.

Lemma chart_synthesizer_rejected chart_spec df w :
  chart_rejected (clean_chart_script chart_spec) = true ->
  chart_synthesizer chart_spec df w = (Ok (None, df), w).
Proof.
  intros Hg. unfold chart_synthesizer. destruct (nonempty chart_spec); [|done].
  by rewrite Hg.
Qed.

(** The synthesizer raises no exception; it ends with an [Exit] only
    when the script it ran did. *)
Lemma chart_synthesizer_cases chart_spec df w :
  chart_synthesizer chart_spec df w = (Ok (None, df), w)
  \/ (let code := clean_chart_script chart_spec in
      let ns := Namespace df (to_records df) in
      let ran := py_exec code ns w in
      nonempty chart_spec = true
      /\ chart_rejected code = false
      /\ chart_synthesizer chart_spec df w
         = (match script_chart ran with
            | Ok chart => Ok (chart, script_df ran)
            | Raise (Error _) => Ok (None, script_df ran)
            | Raise (Exit b) => Raise (Exit b)
            end,
            after_exec w code ns)).
Proof.
  destruct (nonempty chart_spec) eqn:Hn.
  - destruct (chart_rejected (clean_chart_script chart_spec)) eqn:Hg.
    + left. by apply chart_synthesizer_rejected.
    + right. cbv zeta. do 2 (split; [done|]). by apply chart_synthesizer_accepted.
  - left. unfold chart_synthesizer. by rewrite Hn.
Qed.

Lemma chart_synthesizer_no_exit chart_spec df w message :
  no_exit message ->
  exists drawn w', chart_synthesizer chart_spec df w = (Ok drawn, w').
Proof.
  intros [_ Hex].
  destruct (chart_synthesizer_cases chart_spec df w) as [->|(_ & _ & ->)]; [eauto|].
  destruct (script_chart _) as [chart|[e|b]] eqn:Hs; eauto.
  by destruct (Hex _ _ _ _ Hs).
Qed.

(** When the foreign code ends with no [Exit], the body of the
    coroutine does not either. *)
Lemma body_no_exit message w b w' :
  no_exit message ->
  process_request_async_body message w <> (Raise (Exit b), w').
Proof.
  intros Hne. unfold process_request_async_body.
  destruct (negb (nonempty (strip message))); [done|].
  unfold run_bi_pipeline_async. unfold bind at 1. unfold bind at 1.
  unfold lift_outcome at 1.
  destruct (run_async message) as [events|[e|b0]] eqn:Hr; [| done |by destruct (proj1 Hne b0)].
  unfold ret at 1. unfold bind at 1, lift at 1.
  destruct (py_get _ "success" _) as [success|e]; [|done].
  destruct (negb (truthy success)).
  { run. by destruct (py_get _ "error" _). }
  unfold bind at 1, lift at 1.
  destruct (py_get _ "data" _) as [data_list|e]; [|done].
  destruct (negb (truthy data_list)); [done|].
  unfold bind at 1, lift at 1.
  destruct (pd_DataFrame data_list) as [df|e]; [|done].
  unfold bind at 1.
  by destruct (chart_synthesizer_no_exit
                 (default "" (collect_state events !! "chart_spec")) df w message Hne)
    as (drawn & w1 & ->).
Qed.

Lemma process_request_async_total message w :
  no_exit message ->
  exists r w', process_request_async message w = (Ok r, w').
Proof.
  intros Hne.
  destruct (process_request_async_cases message w) as [Hok|(b & w1 & Hb & _)]; [done|].
  by destruct (body_no_exit _ _ _ _ Hne Hb).
Qed.

(** C1 (amended).  When the parsed query result is a record whose
    [success] entry is false (or absent), [process_request_async] returns
    the cleaned SQL under the header [-- Error executing query] and
    followed by [-- Error: <msg>], no table, no chart, and the
    explanation [Error executing query: <msg>]; the synchronous handler
    [process_request] returns the same SQL, no table and the same
    explanation, with the placeholder chart in the place of the chart,
    and clears the stored table. *)
Theorem failed_query_reply message events d w :
  nonempty (strip message) = true ->
  run_async message = Ok events ->
  let results := collect_state events in
  let sql_query := sql_text_normalizer (default "" (results !! "sql_query")) in
  result_parser (default "{}" (results !! "query_results")) = PDict d ->
  truthy (default (PBool false) (dict_lookup "success" d)) = false ->
  let error_msg := py_str (default (PStr "Unknown error") (dict_lookup "error" d)) in
  let annotated :=
    "-- Error executing query" ++ nl ++ sql_query ++ nl ++ nl ++ "-- Error: " ++ error_msg in
  process_request_async message w
  = (Ok (annotated, None, None, "Error executing query: " ++ error_msg), w)
  /\ (loop_running w = false ->
      process_request message w
      = (Ok (annotated, None, Some (TextChart create_no_data_chart),
             "Error executing query: " ++ error_msg),
         World None (exec_log w) (csv_files w) false)).
Proof.
  intros Hm Hr results sql_query Hp Hs error_msg annotated.
  assert (Hasync : process_request_async message w
                   = (Ok (annotated, None, None, "Error executing query: " ++ error_msg), w)).
  { unfold process_request_async, try_except.
    rewrite (body_after_run _ _ _ Hm Hr). cbv zeta.
    fold results. rewrite Hp. run. cbn [py_get]. rewrite Hs. reflexivity. }
  split; [exact Hasync|].
  intros Hl. rewrite (process_request_no_table _ _ _ _ _ _ _ Hl Hasync eq_refl).
  by rewrite Hl.
Qed.

(** C2 (amended).  The handlers catch what [except Exception] catches.
    An exception raised in the body of [process_request_async] is turned
    by its handler into the reply [(err, None, None, err)] with
    [err = "Error: " ++ str(e)]; [process_request] hands that reply on
    with the placeholder chart in the place of the missing chart, and
    clears the table slot.  The handler of [process_request] itself
    answers [(err, None, None, err)] when [asyncio.run] refuses to
    start.  Neither handler ever lets an exception through.  An [Exit]
    (a [BaseException] outside [Exception], such as the [SystemExit] of
    an executed script or the cancellation of the agent run) is caught
    by neither handler and reaches the caller; when the foreign code
    ends with no [Exit], both handlers return a reply. *)
Theorem handlers_catch_exceptions_only message w :
  (forall e w',
      process_request_async_body message w = (Raise (Error e), w') ->
      process_request_async message w
      = (Ok ("Error: " ++ exn_str e, None, None, "Error: " ++ exn_str e), w')
      /\ (loop_running w = false ->
          process_request message w
          = (Ok ("Error: " ++ exn_str e, None, Some (TextChart create_no_data_chart),
                 "Error: " ++ exn_str e),
             World None (exec_log w') (csv_files w') (loop_running w'))))
  /\ (loop_running w = true ->
      let err := "Error: asyncio.run() cannot be called from a running event loop" in
      process_request message w = (Ok (err, None, None, err), w))
  /\ (forall e w', process_request_async message w <> (Raise (Error e), w'))
  /\ (forall e w', process_request message w <> (Raise (Error e), w'))
  /\ (forall b w',
        process_request_async_body message w = (Raise (Exit b), w') ->
        process_request_async message w = (Raise (Exit b), w')
        /\ (loop_running w = false ->
            process_request message w = (Raise (Exit b), w')))
  /\ (no_exit message ->
      (exists r w', process_request_async message w = (Ok r, w'))
      /\ (exists r w', process_request message w = (Ok r, w'))).
Proof.
  split.
  { intros e w' Hb.
    assert (Hasync : process_request_async message w = (Ok (error_reply e), w')).
    { unfold process_request_async, try_except. by rewrite Hb. }
    split; [exact Hasync|]. intros Hl.
    exact (process_request_no_table _ _ _ _ _ _ _ Hl Hasync eq_refl). }
  split; [intros Hl; cbv zeta; by rewrite (process_request_loop_running _ _ Hl)|].
  split; [intros e w'; apply process_request_async_no_error|].
  split; [intros e w'; apply process_request_no_error|].
  split.
  { intros b w' Hb.
    assert (Hasync : process_request_async message w = (Raise (Exit b), w')).
    { unfold process_request_async, try_except. by rewrite Hb. }
    split; [exact Hasync|]. intros Hl. by apply process_request_exit. }
  intros Hne. split; [by apply process_request_async_total|].
  destruct (process_request_cases message w) as [Hok|(b & w1 & Hb & _)]; [done|].
  exfalso. revert Hb.
  unfold process_request_body, asyncio_run. unfold bind at 1.
  destruct (loop_running w); [done|].
  destruct (process_request_async_total message w Hne) as ([[[sql df] chart] expl] & w2 & ->).
  destruct (no_table df); by run.
Qed.

(** C3.  When the parsed query result is a record with a true
    [success] entry and empty data, the request returns the cleaned
    SQL, the empty table, the placeholder chart and the fixed
    explanation, whatever [chart_spec] holds; no script is handed to
    [exec], and the stored table is cleared.  The placeholder chart is
    the one chart that [create_no_data_chart] builds: a text mark over
    a table of one column [message] and one row reading
    [No Data to Display for this Query], the text encoded from that
    column, with the fixed size, colour, font, width, height and
    title. *)
Theorem empty_result_reply message events d w :
  nonempty (strip message) = true ->
  run_async message = Ok events ->
  let results := collect_state events in
  let sql_query := sql_text_normalizer (default "" (results !! "sql_query")) in
  result_parser (default "{}" (results !! "query_results")) = PDict d ->
  truthy (default (PBool false) (dict_lookup "success" d)) = true ->
  truthy (default (PList []) (dict_lookup "data" d)) = false ->
  loop_running w = false ->
  process_request message w
  = (Ok (sql_query, Some empty_frame, Some (TextChart create_no_data_chart),
         "The query executed successfully but returned no data."),
     World None (exec_log w) (csv_files w) false)
  /\ mark create_no_data_chart = "text"
  /\ df_rows (chart_data create_no_data_chart)
     = [[PStr "No Data to Display for this Query"]]
  /\ df_columns (chart_data create_no_data_chart) = ["message"]
  /\ encode_text create_no_data_chart = "message:N"
  /\ create_no_data_chart
     = {| chart_data := Frame ["message"] [[PStr "No Data to Display for this Query"]];
          mark := "text";
          mark_size := 18;
          mark_color := "#718096";
          mark_fontWeight := 500;
          mark_font := "Source Code Pro";
          encode_text := "message:N";
          prop_width := 500;
          prop_height := 300;
          prop_title := "Visual Insight Summary";
          view_strokeWidth := 0 |}.
Proof.
  intros Hm Hr results sql_query Hp Hs Hd Hl.
  assert (Hasync : process_request_async message w
                   = (Ok (sql_query, Some empty_frame, None,
                          "The query executed successfully but returned no data."), w)).
  { unfold process_request_async, try_except.
    rewrite (body_after_run _ _ _ Hm Hr). cbv zeta.
    fold results. rewrite Hp. run. cbn [py_get]. rewrite Hs, Hd. reflexivity. }
  split; [|done].
  rewrite (process_request_no_table _ _ _ _ _ _ _ Hl Hasync eq_refl).
  by rewrite Hl.
Qed.

(** C8.  A script whose cleaned form is empty, starts with [<] or
    holds no [import] in any letter case is rejected: the synthesizer
    returns no chart and hands nothing to [exec], so the table and the
    process stay as they were. *)
Theorem rejected_script_not_executed chart_spec df w :
  let chart_spec_clean := clean_chart_script chart_spec in
  chart_spec_clean = ""
  \/ startswith "<" chart_spec_clean = true
  \/ contains "import" (lower chart_spec_clean) = false ->
  chart_synthesizer chart_spec df w = (Ok (None, df), w).
Proof.
  cbv zeta. intros Hrej. apply chart_synthesizer_rejected.
  unfold chart_rejected.
  destruct Hrej as [Hr|[Hr|Hr]]; rewrite Hr; [done| |apply orb_true_r].
  by rewrite orb_true_r.
Qed.

(** The same at the level of the request: with a rejected script the
    reply carries the table and no chart, and nothing was executed. *)
Lemma rejected_script_reply message events d df w :
  nonempty (strip message) = true ->
  run_async message = Ok events ->
  let results := collect_state events in
  result_parser (default "{}" (results !! "query_results")) = PDict d ->
  truthy (default (PBool false) (dict_lookup "success" d)) = true ->
  truthy (default (PList []) (dict_lookup "data" d)) = true ->
  pd_DataFrame (default (PList []) (dict_lookup "data" d)) = Ok df ->
  chart_rejected (clean_chart_script (default "" (results !! "chart_spec"))) = true ->
  process_request_async message w
  = (Ok (sql_text_normalizer (default "" (results !! "sql_query")), Some df, None,
         final_insights_of (default "" (results !! "trend_insights"))
                           (default "" (results !! "explanation_text"))), w).
Proof.
  intros Hm Hr results Hp Hs Hd Hdf Hg.
  unfold process_request_async, try_except.
  rewrite (body_after_run _ _ _ Hm Hr). cbv zeta.
  fold results. rewrite Hp. run. cbn [py_get]. rewrite Hs, Hd. cbn [negb].
  rewrite Hdf, (chart_synthesizer_rejected _ _ _ Hg). reflexivity.
Qed.

(** The other side of the guard: a script that passes it is handed to
    [exec], once, in its cleaned form. *)
Lemma accepted_script_executed chart_spec df w :
  nonempty chart_spec = true ->
  chart_rejected (clean_chart_script chart_spec) = false ->
  exists r w',
    chart_synthesizer chart_spec df w = (r, w')
    /\ exec_log w' = (exec_log w ++ [clean_chart_script chart_spec])%list.
Proof.
  intros Hn Hg. rewrite (chart_synthesizer_accepted _ df w Hn Hg). by eexists _, _.
Qed.

(** C9 (amended).  When no event loop is running in the calling
    thread, a call of [process_request] that returns leaves in the
    table slot the table it returns when that table is not empty, and
    [None] when it returns no table or an empty one; and the call does
    return when the foreign code ends with no [Exit].  When a loop is
    running, [asyncio.run] refuses to start, the handler returns its
    error reply without a table and the slot keeps what it held. *)
Theorem stored_table_after_request message w :
  (loop_running w = false ->
   forall sql_query df chart explanation w',
     process_request message w = (Ok (sql_query, df, chart, explanation), w') ->
     current_df_storage w' = (if no_table df then None else df))
  /\ (loop_running w = false ->
      no_exit message ->
      exists sql_query df chart explanation w',
        process_request message w = (Ok (sql_query, df, chart, explanation), w')
        /\ current_df_storage w' = (if no_table df then None else df))
  /\ (loop_running w = true ->
      exists err, process_request message w = (Ok (err, None, None, err), w)).
Proof.
  split; [intros Hl sql df chart expl w'; by apply process_request_slot|].
  split.
  - intros Hl Hne.
    destruct (process_request_async_total message w Hne)
      as ([[[sql df] chart] expl] & w1 & Hr).
    destruct (no_table df) eqn:Hn.
    + exists sql, df, (Some (TextChart create_no_data_chart)), expl. eexists.
      split; [by apply (process_request_no_table _ _ _ _ chart _ w1)|]. by rewrite Hn.
    + exists sql, df, chart, expl. eexists.
      split; [by apply (process_request_table _ _ _ _ _ _ w1)|]. by rewrite Hn.
  - intros Hl. rewrite (process_request_loop_running _ _ Hl). by eexists.
Qed.

(** C10.  With no stored table, or an empty one, the download action
    returns the fixed message, raises nothing and writes no file. *)
Theorem download_without_table w :
  current_df_storage w = None
  \/ (exists df, current_df_storage w = Some df /\ df_empty df = true) ->
  download_query_results w
  = (Ok "No data to download. Please run a query first.", w).
Proof.
  intros Hs. unfold download_query_results. run.
  destruct Hs as [->|(df & -> & ->)]; reflexivity.
Qed.

End WithCollaborators.
End HandlerFacts.

(** ** The result parser *)

Module ParserFacts.
Import PyStr PyStrFacts Py Pandas App Examples.

(** *** Lines of a text *)

Lemma prefix_single c d s : String.prefix (String c "") (String d s) = Ascii.eqb c d.
Proof. by rewrite prefix_cons, prefix_nil, andb_true_r. Qed.

Lemma contains_single_cons c d s :
  contains (String c "") (String d s) = Ascii.eqb c d || contains (String c "") s.
Proof. by rewrite contains_cons, prefix_single. Qed.

(** The first line of a text is what precedes its first newline. *)
Lemma split_first_line x y :
  contains nl x = false ->
  split_from nl 0 (x ++ nl ++ y)
  = (x, let '(h, t) := split_from nl 0 y in h :: t).
Proof.
  unfold nl. induction x as [|c x IH]; intros Hx.
  - rewrite app_nil, app_cons, app_nil.
    rewrite split_from_match by (by rewrite prefix_single).
    cbn [String.length Nat.sub drop]. by destruct (split_from _ 0 y).
  - rewrite contains_single_cons in Hx. apply orb_false_iff in Hx as [Hc Hx].
    rewrite app_cons, split_from_step by (by rewrite prefix_single).
    by rewrite (IH Hx).
Qed.

Lemma split_lines_cons x y :
  contains nl x = false -> split nl (x ++ nl ++ y) = x :: split nl y.
Proof.
  intros Hx. unfold split. rewrite (split_first_line _ _ Hx).
  by destruct (split_from nl 0 y).
Qed.

(** *** Trimming keeps what is not whitespace *)

Lemma rstrip_by_app_keep p s t :
  rstrip_by p t = t -> t <> "" -> rstrip_by p (s ++ t) = s ++ t.
Proof.
  intros Ht Hne. induction s as [|c s IH]; [done|].
  rewrite app_cons. cbn [rstrip_by]. rewrite IH.
  destruct (s ++ t) eqn:Hst; [|done].
  destruct s; [by rewrite app_nil in Hst|by rewrite app_cons in Hst].
Qed.

Lemma contains_char_lstrip_by p c s :
  p c = false ->
  contains (String c "") s = true ->
  contains (String c "") (lstrip_by p s) = true.
Proof.
  intros Hc. induction s as [|d s IH]; [done|].
  intros Hs. cbn [lstrip_by]. destruct (p d) eqn:Hd; [|done].
  rewrite contains_single_cons in Hs. apply orb_true_iff in Hs as [Heq|Hs]; [|by apply IH].
  apply Ascii.eqb_eq in Heq as ->. congruence.
Qed.

Lemma contains_char_rstrip_by p c s :
  p c = false ->
  contains (String c "") s = true ->
  contains (String c "") (rstrip_by p s) = true.
Proof.
  intros Hc. induction s as [|d s IH]; [done|].
  rewrite contains_single_cons. intros Hs. cbn [rstrip_by].
  destruct (contains (String c "") s) eqn:Htail.
  - specialize (IH eq_refl). destruct (rstrip_by p s) as [|e r]; [done|].
    rewrite contains_single_cons, IH. apply orb_true_r.
  - rewrite orb_false_r in Hs. apply Ascii.eqb_eq in Hs as <-.
    destruct (rstrip_by p s) as [|e r].
    + rewrite Hc. by rewrite contains_single_cons, Ascii.eqb_refl.
    + by rewrite contains_single_cons, Ascii.eqb_refl.
Qed.

Lemma strip_keeps_pipe s :
  contains "|" s = true -> contains "|" (strip s) = true.
Proof.
  intros Hs. unfold strip.
  by apply contains_char_rstrip_by, contains_char_lstrip_by.
Qed.

Lemma line_with_pipe_kept s :
  contains "|" s = true -> contains "|" s && nonempty (strip s) = true.
Proof.
  intros Hs. rewrite Hs. apply strip_keeps_pipe in Hs.
  by destruct (strip s).
Qed.

Lemma filter_keep {A} (f : A -> bool) x l :
  f x = true -> List.filter f (x :: l) = x :: List.filter f l.
Proof. intros Hx. cbn [List.filter]. by rewrite Hx. Qed.

(** *** The four-line table *)

Lemma four_line_table_trimmed sep : strip (four_line_table sep) = four_line_table sep.
Proof.
  unfold strip, four_line_table.
  rewrite (app_cons "a"), lstrip_by_head by done. rewrite <- (app_cons "a").
  set (rows := nl ++ "1|x" ++ nl ++ "2|y").
  replace ("a|b" ++ nl ++ sep ++ rows) with ((("a|b" ++ nl) ++ sep) ++ rows)
    by (by rewrite !app_assoc).
  by apply rstrip_by_app_keep.
Qed.

Lemma four_line_table_lines sep :
  contains "|" sep = true ->
  contains nl sep = false ->
  table_lines_of (four_line_table sep) = ["a|b"; strip sep; "1|x"; "2|y"].
Proof.
  intros Hp Hn. unfold table_lines_of, four_line_table.
  rewrite (split_lines_cons "a|b") by done.
  rewrite (split_lines_cons sep) by done.
  rewrite (split_lines_cons "1|x") by done.
  change (split nl "2|y") with ["2|y"].
  rewrite (filter_keep _ "a|b") by done.
  rewrite (filter_keep _ sep) by (by apply line_with_pipe_kept).
  reflexivity.
Qed.

Lemma four_line_table_strategy sep :
  contains "|" sep = true ->
  contains nl sep = false ->
  table_strategy (four_line_table sep) = Ok two_rows.
Proof.
  intros Hp Hn. unfold table_strategy.
  rewrite (four_line_table_lines _ Hp Hn).
  vm_compute. reflexivity.
Qed.

(** *** Fenced blocks *)

Lemma lstrip_by_all p t rest :
  forallb p (list_ascii_of_string t) = true ->
  lstrip_by p (t ++ rest) = lstrip_by p rest.
Proof.
  induction t as [|c t IH]; [done|].
  cbn [list_ascii_of_string forallb]. intros [Hc Ht]%andb_true_iff.
  rewrite app_cons. cbn [lstrip_by]. rewrite Hc. by apply IH.
Qed.

Lemma rstrip_by_tail p c s :
  rstrip_by p (String c s) = String c s -> rstrip_by p s = s.
Proof.
  cbn [rstrip_by]. destruct (rstrip_by p s) as [|d r] eqn:Hr.
  - destruct (p c); [done|]. by intros [= <-].
  - by intros [= <-].
Qed.

Lemma rstrip_by_last_kept p s :
  rstrip_by p s = s -> s <> "" ->
  exists c r, lstrip_by p s = String c r /\ p c = false /\ rstrip_by p (String c r) = String c r.
Proof.
  induction s as [|c s IH]; [done|]. intros Hs _.
  cbn [lstrip_by]. destruct (p c) eqn:Hc.
  - pose proof (rstrip_by_tail _ _ _ Hs) as Hs'.
    destruct s as [|d s].
    + cbn in Hs. by rewrite Hc in Hs.
    + by apply IH.
  - by exists c, s.
Qed.

Lemma lstrip_by_app_keep p s rest :
  rstrip_by p s = s -> s <> "" ->
  lstrip_by p (s ++ rest) = lstrip_by p s ++ rest.
Proof.
  induction s as [|c s IH]; [done|]. intros Hs _.
  rewrite app_cons. cbn [lstrip_by]. destruct (p c) eqn:Hc; [|by rewrite app_cons].
  pose proof (rstrip_by_tail _ _ _ Hs) as Hs'.
  destruct s as [|d s].
  - cbn in Hs. by rewrite Hc in Hs.
  - by apply IH.
Qed.

Lemma drop_length k s : String.length (drop k s) = String.length s - k.
Proof.
  revert k. induction s as [|c s IH]; intros [|k]; try done.
  cbn [drop String.length]. rewrite IH. lia.
Qed.

Lemma app_length s t : String.length (s ++ t) = String.length s + String.length t.
Proof.
  induction s as [|c s IH]; [done|]. rewrite app_cons. cbn [String.length]. by rewrite IH.
Qed.

Lemma eqb_length_ne s t : String.length s <> String.length t -> String.eqb s t = false.
Proof.
  intros Hl. apply String.eqb_neq. by intros ->.
Qed.

(** Inside a text that does not end with whitespace, the pattern of the
    trailing fence finds no match before the closing fence. *)
Lemma trailing_fence_not_here c body :
  rstrip_by is_space (String c body) = String c body ->
  Re.trailing_fence_here (String c body ++ nl ++ "```") = None.
Proof.
  intros Hs. unfold Re.trailing_fence_here.
  rewrite (lstrip_by_app_keep _ _ _ Hs) by done.
  destruct (rstrip_by_last_kept _ _ Hs) as (d & r & -> & Hd & _); [done|].
  destruct (startswith "```" (String d r ++ nl ++ "```")) eqn:Hf; [|done].
  rewrite !eqb_length_ne; [done| |];
    rewrite drop_length, app_length; cbn [String.length]; unfold nl;
    rewrite app_length; cbn [String.length]; lia.
Qed.

Lemma sub_trailing_fence_closing body :
  rstrip_by is_space body = body ->
  Re.sub_trailing_fence (body ++ nl ++ "```") = body.
Proof.
  induction body as [|c body IH]; [done|]. intros Hs.
  rewrite app_cons. cbn [Re.sub_trailing_fence]. rewrite <- app_cons.
  rewrite (trailing_fence_not_here _ _ Hs). cbv iota.
  f_equal. apply IH. by apply (rstrip_by_tail _ c).
Qed.

Lemma trimmed_rstrip s : strip s = s -> rstrip_by is_space s = s.
Proof.
  intros Hs. rewrite <- Hs at 1. unfold strip. by rewrite rstrip_by_idem.
Qed.

Lemma trimmed_head s :
  strip s = s -> s <> "" -> exists c r, s = String c r /\ is_space c = false.
Proof.
  intros Hs Hne. unfold strip in Hs.
  destruct (lstrip_by_cases is_space s) as [Hl|(c & r & Hl & Hc)].
  - rewrite Hl in Hs. by rewrite <- Hs in Hne.
  - rewrite Hl in Hs. destruct (rstrip_by_head is_space c r Hc) as [r' Hr].
    rewrite Hr in Hs. by exists c, r'.
Qed.

(** The two substitutions take a fenced block down to its body, whatever
    the letter case of the tag. *)
Lemma fenced_block_body tag body :
  forallb Re.is_letter (list_ascii_of_string tag) = true ->
  strip body = body ->
  body <> "" ->
  Re.sub_trailing_fence (Re.sub_leading_fence (fenced_block tag body)) = body.
Proof.
  intros Htag Hbody Hne.
  destruct (trimmed_head _ Hbody Hne) as (c & r & -> & Hc).
  unfold fenced_block, Re.sub_leading_fence.
  set (rest := String c r ++ nl ++ "```").
  assert (Hstart : forall text, startswith "```" ("```" ++ text) = true).
  { intros text. unfold startswith.
    by rewrite !app_cons, app_nil, !prefix_cons, prefix_nil. }
  assert (Hdrop : forall text, drop 3 ("```" ++ text) = text) by done.
  rewrite Hstart, Hdrop, (lstrip_by_all _ _ _ Htag).
  unfold nl at 1. rewrite app_cons, app_nil.
  rewrite (lstrip_by_head Re.is_letter) by done.
  assert (Hnl : forall text, lstrip_by is_space (String "010" text) = lstrip_by is_space text)
    by done.
  rewrite Hnl. unfold rest. rewrite app_cons, lstrip_by_head by done. rewrite <- app_cons.
  by apply sub_trailing_fence_closing, trimmed_rstrip.
Qed.

Lemma fenced_block_trimmed tag body : strip (fenced_block tag body) = fenced_block tag body.
Proof.
  unfold strip, fenced_block.
  rewrite (app_cons "`"), lstrip_by_head by done. rewrite <- (app_cons "`").
  replace ("```" ++ tag ++ nl ++ body ++ nl ++ "```")
    with (("```" ++ tag ++ nl ++ body ++ nl) ++ "```")
    by (by rewrite !app_assoc).
  by apply rstrip_by_app_keep.
Qed.

(** *** The JSON strategy on text that is not JSON *)

Lemma loads_rejects_letter rest :
  Json.loads (String "a" rest) = Raise Json.JSONDecodeError.
Proof. reflexivity. Qed.

Lemma clean_json_letter rest :
  Re.sub_trailing_fence (Re.sub_leading_fence (String "a" rest))
  = String "a" (Re.sub_trailing_fence rest).
Proof. reflexivity. Qed.

Section WithCollaborators.
Context `{Collaborators}.

(** The parser once the JSON decoder has raised *)
Lemma result_parser_not_json raw e :
  json_loads (Re.sub_trailing_fence (Re.sub_leading_fence (strip raw))) = Raise e ->
  result_parser raw
  = match table_strategy (strip raw) with
    | Ok query_results => query_results
    | Raise _ => fallback_strategy (strip raw)
    end.
Proof. intros Hj. unfold result_parser, json_strategy. by rewrite Hj. Qed.

Lemma result_parser_json_list raw l :
  json_loads (Re.sub_trailing_fence (Re.sub_leading_fence (strip raw))) = Ok (PList l) ->
  result_parser raw = PDict [("success", PBool true); ("data", PList l)].
Proof. intros Hj. unfold result_parser, json_strategy. by rewrite Hj. Qed.

(** Text that neither strategy accepts becomes a failed record whose
    error quotes the first hundred characters. *)
Lemma unparsed_text_is_failure raw e_json e_table :
  json_loads (Re.sub_trailing_fence (Re.sub_leading_fence (strip raw))) = Raise e_json ->
  table_strategy (strip raw) = Raise e_table ->
  result_parser raw
  = PDict [("success", PBool false);
           ("data", PList []);
           ("error", PStr ("Could not parse query results. Output: "
                             ++ take 100 (strip raw)))].
Proof.
  intros Hj Ht. rewrite (result_parser_not_json _ _ Hj). by rewrite Ht.
Qed.

(** A fenced block is parsed as its body is decoded. *)
Lemma result_parser_fenced_list tag body l :
  forallb Re.is_letter (list_ascii_of_string tag) = true ->
  strip body = body ->
  body <> "" ->
  json_loads body = Ok (PList l) ->
  result_parser (fenced_block tag body)
  = PDict [("success", PBool true); ("data", PList l)].
Proof.
  intros Htag Hbody Hne Hj. apply result_parser_json_list.
  by rewrite fenced_block_trimmed, fenced_block_body.
Qed.

(** Whatever the decoder, a four-line table it rejects gives two rows. *)
Lemma four_line_table_parsed sep e :
  contains "|" sep = true ->
  contains nl sep = false ->
  json_loads (Re.sub_trailing_fence (Re.sub_leading_fence (four_line_table sep)))
  = Raise e ->
  result_parser (four_line_table sep) = two_rows.
Proof.
  intros Hp Hn Hj.
  rewrite (result_parser_not_json _ e) by (by rewrite four_line_table_trimmed).
  by rewrite four_line_table_trimmed, four_line_table_strategy.
Qed.

End WithCollaborators.

(** C4.  The JSON strategy removes a leading fence line (with its
    language tag, in any letter case) and a trailing fence from the
    trimmed text and decodes the rest; when the decoded value is a list
    the parsed result is [{success: true, data: that list}].  So a fenced
    block is parsed as its body is decoded, and the text
    [[{"a":1},{"a":2}]] gives the two records, bare or inside a block
    tagged [JSON]. *)
Theorem json_list_is_success :
  (forall (C : Collaborators) raw l,
      json_loads (Re.sub_trailing_fence (Re.sub_leading_fence (strip raw))) = Ok (PList l) ->
      result_parser raw = PDict [("success", PBool true); ("data", PList l)])
  /\ (forall (C : Collaborators) tag body l,
        forallb Re.is_letter (list_ascii_of_string tag) = true ->
        strip body = body ->
        body <> "" ->
        json_loads body = Ok (PList l) ->
        result_parser (fenced_block tag body)
        = PDict [("success", PBool true); ("data", PList l)])
  /\ (forall agent exec,
        result_parser (H := Scenario.collaborators agent exec) json_rows
        = json_rows_parsed)
  /\ (forall agent exec,
        result_parser (H := Scenario.collaborators agent exec)
                      (fenced_block "JSON" json_rows)
        = json_rows_parsed).
Proof.
  split; [intros C raw l; apply result_parser_json_list|].
  split; [intros C tag body l; apply result_parser_fenced_list|].
  split; intros agent exec; vm_compute; reflexivity.
Qed.

Lemma json_list_is_success_witness :
  result_parser (H := Scenario.collaborators (Scenario.answers []) Scenario.draws)
                ("  [1, 2]  ")
  = PDict [("success", PBool true); ("data", PList [PInt 1; PInt 2])]
  /\ result_parser (H := Scenario.collaborators (Scenario.answers []) Scenario.draws)
                   (fenced_block "Json" "[true]")
     = PDict [("success", PBool true); ("data", PList [PBool true])].
Proof.
  destruct json_list_is_success as (Hlist & Hfenced & _).
  split.
  - apply Hlist. vm_compute. reflexivity.
  - apply Hfenced; [reflexivity|reflexivity|discriminate|vm_compute; reflexivity].
Defined.

(** C5.  A Markdown table of four lines (header [a|b], a separator
    line, data rows [1|x] and [2|y]) is parsed with success into exactly
    two rows; a cell is a float when [float] accepts its text ([a] is 1.0
    and 2.0) and the text itself otherwise ([b] is [x] and [y]). *)
Theorem markdown_table_two_rows agent exec :
  (forall sep,
      contains "|" sep = true ->
      contains nl sep = false ->
      result_parser (H := Scenario.collaborators agent exec) (four_line_table sep)
      = two_rows)
  /\ result_parser (H := Scenario.collaborators agent exec) bordered_table = two_rows
  /\ (forall val f, PyFloat.py_float val = Some f -> coerce val = PFloat f)
  /\ (forall val, PyFloat.py_float val = None -> coerce val = PStr val)
  /\ PyFloat.py_float "1" = Some (PyFloat.to_float64 1)
  /\ PyFloat.py_float "2" = Some (PyFloat.to_float64 2)
  /\ PyFloat.py_float "x" = None
  /\ PyFloat.py_float "y" = None
  /\ PyFloat.to_float64 1 = S754_finite false (2 ^ 52) (-52)
  /\ PyFloat.to_float64 2 = S754_finite false (2 ^ 52) (-51).
Proof.
  split.
  { intros sep Hp Hn.
    apply (four_line_table_parsed sep Json.JSONDecodeError Hp Hn).
    unfold four_line_table. rewrite (app_cons "a"). reflexivity. }
  split; [vm_compute; reflexivity|].
  split; [intros val f Hf; unfold coerce; by rewrite Hf|].
  split; [intros val Hf; unfold coerce; by rewrite Hf|].
  repeat split; vm_compute; reflexivity.
Qed.

Lemma markdown_table_two_rows_witness :
  result_parser (H := Scenario.collaborators (Scenario.answers []) Scenario.draws)
                (four_line_table "---|---")
  = two_rows
  /\ coerce "1.5e3" = PFloat (PyFloat.to_float64 1500)
  /\ coerce "n/a" = PStr "n/a".
Proof.
  destruct (markdown_table_two_rows (Scenario.answers []) Scenario.draws)
    as (Hsep & _ & Hfloat & Htext & _).
  split; [apply Hsep; reflexivity|].
  split; [apply Hfloat|apply Htext]; vm_compute; reflexivity.
Defined.

(** Plain text falls through to the third strategy. *)
Lemma plain_text_is_failure agent exec :
  result_parser (H := Scenario.collaborators agent exec) "connection refused"
  = PDict [("success", PBool false); ("data", PList []);
           ("error", PStr "Could not parse query results. Output: connection refused")].
Proof. vm_compute. reflexivity. Qed.

End ParserFacts.

(** ** Worked runs of the handlers *)

Module HandlerRuns.
Import PyStr Py Pandas App Examples MoreExamples Notions HandlerFacts.

(** The scripts of [Scenario.draws] and the agent runs of
    [Scenario.answers] end with no [Exit]. *)
Lemma answered_run_no_exit state message :
  no_exit (H := Scenario.collaborators (Scenario.answers state) Scenario.draws) message.
Proof. split; intros; discriminate. Defined.

(** C1, as stated, fails for the synchronous handler: on a failed query
    the chart it returns is the placeholder chart, not [None]. *)
Lemma failed_query_chart_is_placeholder :
  result_parser (H := failed_run) "connection refused"
  = PDict [("success", PBool false); ("data", PList []);
           ("error", PStr "Could not parse query results. Output: connection refused")]
  /\ Outcome.chart_of (process_request (H := failed_run) "How many orders?" Scenario.idle)
     = Ok (Some (TextChart create_no_data_chart))
  /\ Outcome.chart_of (process_request (H := failed_run) "How many orders?" Scenario.idle)
     <> Ok None.
Proof.
  split; [vm_compute; reflexivity|].
  assert (Hchart : Outcome.chart_of (process_request (H := failed_run) "How many orders?"
                                                     Scenario.idle)
                   = Ok (Some (TextChart create_no_data_chart)))
    by (vm_compute; reflexivity).
  split; [exact Hchart|]. rewrite Hchart. discriminate.
Qed.

Lemma failed_query_reply_witness :
  let error_msg := "Could not parse query results. Output: connection refused" in
  let annotated :=
    "-- Error executing query" ++ nl ++ "SELECT 1" ++ nl ++ nl ++ "-- Error: " ++ error_msg in
  process_request_async (H := failed_run) "How many orders?" Scenario.idle
  = (Ok (annotated, None, None, "Error executing query: " ++ error_msg), Scenario.idle)
  /\ process_request (H := failed_run) "How many orders?" Scenario.idle
     = (Ok (annotated, None, Some (TextChart create_no_data_chart),
            "Error executing query: " ++ error_msg), Scenario.idle).
Proof.
  assert (Hp : result_parser (H := failed_run) "connection refused"
               = PDict [("success", PBool false); ("data", PList []);
                        ("error", PStr "Could not parse query results. Output: connection refused")])
    by (vm_compute; reflexivity).
  pose proof (failed_query_reply (H := failed_run) "How many orders?" _ _ Scenario.idle
                eq_refl eq_refl Hp eq_refl) as [Hasync Hsync].
  split; [exact Hasync|exact (Hsync eq_refl)].
Defined.

(** C2, as stated, fails twice.  An exception of the flow reaches the
    caller of [process_request] as a reply whose chart is the
    placeholder chart, not [None]; and the [SystemExit] of an executed
    script is caught by neither handler: it is raised to the caller. *)
Lemma flow_faults_reach_the_caller :
  process_request (H := broken_run) "How many orders?" Scenario.idle
  = (Ok ("Error: model unavailable", None, Some (TextChart create_no_data_chart),
         "Error: model unavailable"),
     Scenario.idle)
  /\ Outcome.chart_of (process_request (H := broken_run) "How many orders?" Scenario.idle)
     <> Ok None
  /\ process_request_async (H := exiting_script_run) "How many orders?" Scenario.idle
     = (Raise (Exit (Exn "SystemExit" "1")), World None [cleaned_script] [] false)
  /\ process_request (H := exiting_script_run) "How many orders?" Scenario.idle
     = (Raise (Exit (Exn "SystemExit" "1")), World None [cleaned_script] [] false).
Proof.
  assert (Hreply : process_request (H := broken_run) "How many orders?" Scenario.idle
                   = (Ok ("Error: model unavailable", None,
                          Some (TextChart create_no_data_chart),
                          "Error: model unavailable"),
                      Scenario.idle))
    by (vm_compute; reflexivity).
  split; [exact Hreply|].
  split; [rewrite Hreply; discriminate|].
  split; vm_compute; reflexivity.
Qed.

Lemma handlers_catch_exceptions_only_witness :
  (process_request_async (H := broken_run) "How many orders?" Scenario.idle
   = (Ok ("Error: model unavailable", None, None, "Error: model unavailable"),
      Scenario.idle)
   /\ process_request (H := broken_run) "How many orders?" Scenario.idle
      = (Ok ("Error: model unavailable", None, Some (TextChart create_no_data_chart),
             "Error: model unavailable"),
         Scenario.idle))
  /\ process_request (H := broken_run) "How many orders?" busy_with_table
     = (Ok ("Error: asyncio.run() cannot be called from a running event loop",
            None, None,
            "Error: asyncio.run() cannot be called from a running event loop"),
        busy_with_table)
  /\ (process_request_async (H := exiting_script_run) "How many orders?" Scenario.idle
      = (Raise (Exit (Exn "SystemExit" "1")), World None [cleaned_script] [] false)
      /\ process_request (H := exiting_script_run) "How many orders?" Scenario.idle
         = (Raise (Exit (Exn "SystemExit" "1")), World None [cleaned_script] [] false))
  /\ ((exists r w', process_request_async (H := table_run) "How many orders?" Scenario.idle
                    = (Ok r, w'))
      /\ (exists r w', process_request (H := table_run) "How many orders?" Scenario.idle
                       = (Ok r, w'))).
Proof.
  assert (Hexit : process_request_async_body (H := exiting_script_run) "How many orders?"
                    Scenario.idle
                  = (Raise (Exit (Exn "SystemExit" "1")),
                     World None [cleaned_script] [] false))
    by (vm_compute; reflexivity).
  destruct (handlers_catch_exceptions_only (H := broken_run) "How many orders?"
              Scenario.idle) as (Herror & _).
  destruct (handlers_catch_exceptions_only (H := broken_run) "How many orders?"
              busy_with_table) as (_ & Hbusy & _).
  destruct (handlers_catch_exceptions_only (H := exiting_script_run) "How many orders?"
              Scenario.idle) as (_ & _ & _ & _ & Hgoes & _).
  destruct (handlers_catch_exceptions_only (H := table_run) "How many orders?"
              Scenario.idle) as (_ & _ & _ & _ & _ & Htotal).
  split.
  { destruct (Herror (RuntimeError "model unavailable") Scenario.idle eq_refl)
      as [Hasync Hsync].
    split; [exact Hasync|exact (Hsync eq_refl)]. }
  split; [exact (Hbusy eq_refl)|].
  split.
  { destruct (Hgoes _ _ Hexit) as [Hasync Hsync].
    split; [exact Hasync|exact (Hsync eq_refl)]. }
  exact (Htotal (answered_run_no_exit _ _)).
Defined.

(** A decoded JSON scalar has no [get]: the body raises, the handler
    answers. *)
Example scalar_result_is_caught :
  process_request_async
    (H := Scenario.collaborators (Scenario.answers [("query_results", "42")]) Scenario.draws)
    "How many orders?" Scenario.idle
  = (Ok ("Error: 'int' object has no attribute 'get'", None, None,
         "Error: 'int' object has no attribute 'get'"), Scenario.idle).
Proof. vm_compute. reflexivity. Qed.

Lemma empty_result_reply_witness :
  process_request (H := empty_run) "How many orders?" Scenario.idle
  = (Ok ("SELECT 1", Some empty_frame, Some (TextChart create_no_data_chart),
         "The query executed successfully but returned no data."),
     Scenario.idle).
Proof.
  assert (Hp : result_parser (H := empty_run) "[]"
               = PDict [("success", PBool true); ("data", PList [])])
    by (vm_compute; reflexivity).
  pose proof (empty_result_reply (H := empty_run) "How many orders?" _ _ Scenario.idle
                eq_refl eq_refl Hp eq_refl eq_refl eq_refl) as [Hreply _].
  exact Hreply.
Defined.

Lemma rejected_script_not_executed_witness :
  chart_synthesizer (H := table_run) "chart = alt.Chart(df)" two_row_frame Scenario.idle
  = (Ok (None, two_row_frame), Scenario.idle)
  /\ chart_synthesizer (H := table_run) "<thinking_process>import altair" two_row_frame
                       Scenario.idle
     = (Ok (None, two_row_frame), Scenario.idle)
  /\ chart_synthesizer (H := table_run) "```python```" two_row_frame Scenario.idle
     = (Ok (None, two_row_frame), Scenario.idle).
Proof.
  split; [|split].
  - apply (rejected_script_not_executed (H := table_run)). right. right. reflexivity.
  - apply (rejected_script_not_executed (H := table_run)). right. left. reflexivity.
  - apply (rejected_script_not_executed (H := table_run)). left. reflexivity.
Defined.

(** A full successful request: the script is executed once and the
    table is stored. *)
Example table_run_reply :
  process_request (H := table_run) "How many orders?" Scenario.idle
  = (Ok ("SELECT 1", Some two_row_frame,
         Some (ExecChart
                 (Handle ("chart of import altair as alt" ++ nl ++ "chart = alt.Chart(df)"))),
         "The query executed successfully but no additional insights were generated."),
     World (Some two_row_frame)
           ["import altair as alt" ++ nl ++ "chart = alt.Chart(df)"] [] false).
Proof. vm_compute. reflexivity. Qed.

(** C9, as stated, fails when the handler's own [except] branch
    answers: the call returns no table and the slot still holds the
    table of the previous request. *)
Lemma refused_run_keeps_stored_table :
  Outcome.table_of (process_request (H := failed_run) "How many orders?"
                                    busy_with_table)
  = Ok None
  /\ current_df_storage
       (snd (process_request (H := failed_run) "How many orders?"
                             busy_with_table))
     = Some two_row_frame
  /\ current_df_storage
       (snd (process_request (H := failed_run) "How many orders?"
                             busy_with_table))
     <> None.
Proof.
  assert (Hslot : current_df_storage
                    (snd (process_request (H := failed_run) "How many orders?"
                                          busy_with_table))
                  = Some two_row_frame)
    by (vm_compute; reflexivity).
  split; [vm_compute; reflexivity|].
  split; [exact Hslot|]. rewrite Hslot. discriminate.
Qed.

Lemma stored_table_after_request_witness :
  current_df_storage (World (Some two_row_frame) [cleaned_script] [] false)
  = Some two_row_frame
  /\ (exists sql_query df chart explanation w',
        process_request (H := failed_run) "How many orders?"
                        (World (Some two_row_frame) [] [] false)
        = (Ok (sql_query, df, chart, explanation), w')
        /\ current_df_storage w' = (if no_table df then None else df))
  /\ (exists err,
        process_request (H := failed_run) "How many orders?" busy_with_table
        = (Ok (err, None, None, err), busy_with_table)).
Proof.
  assert (Hreply : process_request (H := table_run) "How many orders?" Scenario.idle
                   = (Ok ("SELECT 1", Some two_row_frame,
                          Some (ExecChart (Handle ("chart of " ++ cleaned_script))),
                          "The query executed successfully but no additional insights were generated."),
                      World (Some two_row_frame) [cleaned_script] [] false))
    by (vm_compute; reflexivity).
  split; [|split].
  - destruct (stored_table_after_request (H := table_run) "How many orders?"
                Scenario.idle) as [Hslot _].
    exact (Hslot eq_refl _ _ _ _ _ Hreply).
  - destruct (stored_table_after_request (H := failed_run) "How many orders?"
                (World (Some two_row_frame) [] [] false)) as (_ & Hrun & _).
    exact (Hrun eq_refl (answered_run_no_exit _ _)).
  - destruct (stored_table_after_request (H := failed_run) "How many orders?"
                busy_with_table) as (_ & _ & Hbusy).
    apply Hbusy. reflexivity.
Defined.

(** A failed request after a successful one clears the stored table. *)
Example failed_request_clears_table :
  current_df_storage
    (snd (process_request (H := failed_run) "How many orders?"
                          (World (Some two_row_frame) [] [] false)))
  = None.
Proof. vm_compute. reflexivity. Qed.

Lemma download_without_table_witness :
  download_query_results (H := failed_run) Scenario.idle
  = (Ok "No data to download. Please run a query first.", Scenario.idle)
  /\ download_query_results (H := failed_run) (World (Some empty_frame) [] [] false)
     = (Ok "No data to download. Please run a query first.",
        World (Some empty_frame) [] [] false).
Proof.
  split.
  - apply (download_without_table (H := failed_run)). left. reflexivity.
  - apply (download_without_table (H := failed_run)). right.
    exists empty_frame. split; reflexivity.
Defined.

(** With a stored table the download writes one file and returns its
    path. *)
Example download_with_table :
  download_query_results (H := table_run) (World (Some two_row_frame) [] [] false)
  = (Ok "/tmp/query_results_20240101_120000.csv",
     World (Some two_row_frame) []
           [("/tmp/query_results_20240101_120000.csv", two_row_frame)] false).
Proof. vm_compute. reflexivity. Qed.

End HandlerRuns.

(** * Further properties of [app.py] *)

(** ** The pipeline state collected by [run_bi_pipeline_async] *)

Module StateFacts.
Import PyStr Py Pandas App Notions.

Lemma assoc_last_app k l1 l2 :
  assoc_last k (l1 ++ l2)%list
  = match assoc_last k l2 with
    | Some v => Some v
    | None => assoc_last k l1
    end.
Proof.
  induction l1 as [|[k' v] l1 IH]; cbn [assoc_last app].
  - by destruct (assoc_last k l2).
  - rewrite IH. by destruct (assoc_last k l2).
Qed.

Lemma fold_insert_lookup (delta : list (string * string)) (m : gmap string string) k :
  fold_left (fun r kv => <[fst kv := snd kv]> r) delta m !! k
  = match assoc_last k delta with
    | Some v => Some v
    | None => m !! k
    end.
Proof.
  revert m. induction delta as [|[k' v] delta IH]; intros m; [done|].
  cbn [fold_left assoc_last fst snd]. rewrite IH.
  destruct (assoc_last k delta); [done|].
  destruct (String.eqb_spec k' k) as [->|Hne].
  - by rewrite lookup_insert_eq.
  - by rewrite lookup_insert_ne.
Qed.

Lemma merge_delta_lookup (m : gmap string string) ev k :
  merge_delta m ev !! k
  = match assoc_last k (flat_deltas [ev]) with
    | Some v => Some v
    | None => m !! k
    end.
Proof.
  unfold merge_delta, flat_deltas. cbn [map concat]. rewrite app_nil_r.
  destruct (actions ev); [apply fold_insert_lookup|done].
Qed.

Lemma flat_deltas_cons ev events :
  flat_deltas (ev :: events) = (flat_deltas [ev] ++ flat_deltas events)%list.
Proof. unfold flat_deltas. cbn [map concat]. by rewrite app_nil_r. Qed.

Lemma fold_merge_lookup events (m : gmap string string) k :
  fold_left merge_delta events m !! k
  = match assoc_last k (flat_deltas events) with
    | Some v => Some v
    | None => m !! k
    end.
Proof.
  revert m. induction events as [|ev events IH]; intros m; [done|].
  cbn [fold_left]. rewrite IH, merge_delta_lookup.
  rewrite (flat_deltas_cons ev events).
  rewrite assoc_last_app. by destruct (assoc_last k (flat_deltas events)).
Qed.

(** X1.  The state collected from an agent run maps every key to the
    value of the last delta entry that names it, over all events in
    arrival order, and holds no other key; events without actions count
    for nothing, and one more delta overwrites exactly the keys it
    names. *)
Theorem collect_state_last_writer_wins :
  (forall events k,
      collect_state events !! k = assoc_last k (flat_deltas events))
  /\ (forall events delta k v,
        assoc_last k delta = Some v ->
        collect_state (events ++ [Event (Some (Actions delta))])%list !! k = Some v)
  /\ (forall events delta k,
        assoc_last k delta = None ->
        collect_state (events ++ [Event (Some (Actions delta))])%list !! k
        = collect_state events !! k)
  /\ (forall events k,
        collect_state (events ++ [Event None])%list !! k = collect_state events !! k).
Proof.
  assert (Hlookup : forall events k,
             collect_state events !! k = assoc_last k (flat_deltas events)).
  { intros events k. unfold collect_state. rewrite fold_merge_lookup.
    by destruct (assoc_last k (flat_deltas events)). }
  assert (Hsnoc : forall events ev k,
             collect_state (events ++ [ev])%list !! k
             = match assoc_last k (flat_deltas [ev]) with
               | Some v => Some v
               | None => collect_state events !! k
               end).
  { intros events ev k. unfold collect_state. rewrite fold_left_app. cbn [fold_left].
    apply merge_delta_lookup. }
  split; [exact Hlookup|]. split; [|split].
  - intros events delta k v Hk. rewrite Hsnoc.
    unfold flat_deltas. cbn [map concat actions state_delta]. rewrite app_nil_r.
    by rewrite Hk.
  - intros events delta k Hk. rewrite Hsnoc.
    unfold flat_deltas. cbn [map concat actions state_delta]. rewrite app_nil_r.
    by rewrite Hk.
  - intros events k. by rewrite Hsnoc.
Qed.

Lemma collect_state_last_writer_wins_witness :
  collect_state [Event (Some (Actions [("sql_query", "SELECT 1")]));
                 Event None;
                 Event (Some (Actions [("sql_query", "SELECT 2"); ("chart_spec", "x")]))]
  !! "sql_query" = Some "SELECT 2".
Proof.
  destruct collect_state_last_writer_wins as (_ & Hlast & _).
  apply (Hlast [Event (Some (Actions [("sql_query", "SELECT 1")])); Event None]
               [("sql_query", "SELECT 2"); ("chart_spec", "x")]).
  reflexivity.
Defined.

End StateFacts.

(** ** Requests: validation, odd results, charts, the table slot *)

Module RequestFacts.
Import PyStr PyStrFacts ReplaceFacts Py Pandas App Notions HandlerFacts.

Lemma lstrip_blank s : blank s = true -> lstrip_by is_space s = "".
Proof.
  unfold blank. induction s as [|c s IH]; [done|].
  cbn [list_ascii_of_string forallb lstrip_by]. intros [Hc Hs]%andb_true_iff.
  rewrite Hc. by apply IH.
Qed.

Lemma strip_blank s : blank s = true -> strip s = "".
Proof. intros Hb. unfold strip. by rewrite (lstrip_blank _ Hb). Qed.

Lemma strip_not_blank s : blank s = false -> nonempty (strip s) = true.
Proof.
  unfold blank, strip. induction s as [|c s IH]; [done|].
  cbn [list_ascii_of_string forallb lstrip_by]. destruct (is_space c) eqn:Hc.
  - cbn [andb]. apply IH.
  - intros _. by destruct (rstrip_by_head is_space c s Hc) as [r ->].
Qed.

Section WithCollaborators.
Context `{Collaborators}.

Ltac run :=
  unfold bind, lift, lift_outcome, ret, raise, try_except, set_storage, get_storage.


(** The reply of the coroutine once the agent has answered and the
    parsed result is known *)
Lemma async_after_parse message events w :
  blank message = false ->
  run_async message = Ok events ->
  process_request_async message w
  = try_except
      (let results := collect_state events in
       let sql_query := sql_text_normalizer (default "" (results !! "sql_query")) in
       let query_results := result_parser (default "{}" (results !! "query_results")) in
       bind (lift (py_get query_results "success" (PBool false))) (fun success =>
       if negb (truthy success) then
         bind (lift (py_get query_results "error" (PStr "Unknown error"))) (fun error_msg =>
         ret (error_sql sql_query (py_str error_msg), None, None,
              "Error executing query: " ++ py_str error_msg))
       else
         bind (lift (py_get query_results "data" (PList []))) (fun data_list =>
         if negb (truthy data_list) then
           ret (sql_query, Some empty_frame, None,
                "The query executed successfully but returned no data.")
         else
           bind (lift (pd_DataFrame data_list)) (fun df =>
           bind (chart_synthesizer (default "" (results !! "chart_spec")) df) (fun drawn =>
           ret (sql_query, Some (snd drawn), option_map ExecChart (fst drawn),
                final_insights_of (default "" (results !! "trend_insights"))
                                  (default "" (results !! "explanation_text"))))))))
      (fun e => ret (error_reply e)) w.
Proof.
  intros Hb Hr. unfold process_request_async. unfold try_except at 1 2.
  by rewrite (body_after_run _ _ _ (strip_not_blank _ Hb) Hr).
Qed.

(** X3.  When the agent run reports no [query_results] at all, the
    default text [{}] is parsed: the decoded empty object has no
    [success] entry, so the reply is the failure reply with the message
    [Unknown error]. *)
Theorem missing_results_reply message events w :
  blank message = false ->
  run_async message = Ok events ->
  collect_state events !! "query_results" = None ->
  json_loads "{}" = Ok (PDict []) ->
  let sql_query :=
    sql_text_normalizer (default "" (collect_state events !! "sql_query")) in
  process_request_async message w
  = (Ok ("-- Error executing query" ++ nl ++ sql_query ++ nl ++ nl
           ++ "-- Error: Unknown error",
         None, None, "Error executing query: Unknown error"), w).
Proof.
  intros Hb Hr Hq Hj sql_query.
  rewrite (async_after_parse _ _ _ Hb Hr). cbv zeta. rewrite Hq. cbn [default].
  assert (Hp : result_parser "{}" = PDict []).
  { unfold result_parser, json_strategy.
    change (Re.sub_trailing_fence (Re.sub_leading_fence (strip "{}"))) with "{}".
    by rewrite Hj. }
  rewrite Hp. reflexivity.
Qed.

(** X4.  A result text that decodes to a JSON value that is neither a
    list nor an object is used as it is: asking it for [success] raises
    [AttributeError], and the outer handler answers with the error reply
    that names the type of the value. *)
Theorem scalar_result_reply message events v w :
  blank message = false ->
  run_async message = Ok events ->
  json_loads (Re.sub_trailing_fence
                (Re.sub_leading_fence
                   (strip (default "{}" (collect_state events !! "query_results")))))
  = Ok v ->
  match v with PList _ | PDict _ => False | _ => True end ->
  let err := "Error: '" ++ type_name v ++ "' object has no attribute 'get'" in
  process_request_async message w = (Ok (err, None, None, err), w).
Proof.
  intros Hb Hr Hj Hv err.
  rewrite (async_after_parse _ _ _ Hb Hr). cbv zeta.
  assert (Hp : result_parser (default "{}" (collect_state events !! "query_results")) = v).
  { unfold result_parser, json_strategy. rewrite Hj. by destruct v. }
  rewrite Hp. by destruct v.
Qed.

(** *** The script that reaches [exec] *)

Lemma clean_chart_script_trimmed chart_spec :
  strip (clean_chart_script chart_spec) = clean_chart_script chart_spec.
Proof. unfold clean_chart_script. apply strip_idem. Qed.

Lemma clean_chart_script_no_fence chart_spec :
  contains fence (clean_chart_script chart_spec) = false.
Proof.
  unfold clean_chart_script. apply contains_strip_false, replace_fence_clean.
Qed.

(** X5.  The chart synthesizer hands at most one script to [exec].
    When it hands none, it returns no chart and leaves the table and the
    process as they were.  A script that reaches [exec] is the cleaned
    script: it is trimmed and not empty, does not start with [<], holds
    [import] in some letter case and holds no fence marker. *)
Theorem executed_script_is_vetted chart_spec df w r w' :
  chart_synthesizer chart_spec df w = (r, w') ->
  (r = Ok (None, df) /\ w' = w)
  \/ (w' = after_exec w (clean_chart_script chart_spec) (Namespace df (to_records df))
      /\ exec_log w' = (exec_log w ++ [clean_chart_script chart_spec])%list
      /\ clean_chart_script chart_spec <> ""
      /\ strip (clean_chart_script chart_spec) = clean_chart_script chart_spec
      /\ startswith "<" (clean_chart_script chart_spec) = false
      /\ contains "import" (lower (clean_chart_script chart_spec)) = true
      /\ contains fence (clean_chart_script chart_spec) = false).
Proof.
  intros Hrun.
  destruct (chart_synthesizer_cases chart_spec df w) as [Hno|(_ & Hg & Hyes)].
  - rewrite Hno in Hrun. injection Hrun as <- <-. by left.
  - rewrite Hyes in Hrun. injection Hrun as _ <-. right.
    unfold chart_rejected in Hg.
    apply orb_false_iff in Hg as [[Hne Hlt]%orb_false_iff Himp].
    apply negb_false_iff in Hne, Himp.
    split; [done|]. split; [done|]. split; [by intros Heq; rewrite Heq in Hne|].
    split; [apply clean_chart_script_trimmed|].
    split; [done|]. split; [done|]. apply clean_chart_script_no_fence.
Qed.

(** X6.  A chart text whose trimmed form starts with [<] and holds no
    closing thinking marker (markup, or a thinking block that is never
    closed) is never executed: the cleaning keeps the leading [<] and the
    guard rejects it. *)
Theorem markup_is_never_executed chart_spec df w :
  startswith "<" (strip chart_spec) = true ->
  contains thinking_close (strip chart_spec) = false ->
  chart_synthesizer chart_spec df w = (Ok (None, df), w).
Proof.
  intros Hlt Hclose. apply chart_synthesizer_rejected.
  unfold clean_chart_script.
  assert (Hbody : (if contains thinking_open (strip chart_spec)
                   then if (1 <? List.length (split thinking_close (strip chart_spec)))%nat
                        then strip (last_piece (split thinking_close (strip chart_spec)))
                        else strip chart_spec
                   else strip chart_spec) = strip chart_spec).
  { destruct (contains thinking_open (strip chart_spec)); [|done].
    by rewrite (split_length_none _ _ Hclose). }
  rewrite Hbody.
  destruct (strip chart_spec) as [|c body] eqn:Hs; [done|].
  unfold startswith in Hlt. rewrite ParserFacts.prefix_single in Hlt.
  apply Ascii.eqb_eq in Hlt as <-.
  rewrite (replace_step "```python" "" "<" body) by done.
  rewrite (replace_step fence "" "<") by done.
  unfold strip. rewrite lstrip_by_head by done.
  destruct (rstrip_by_head is_space "<" (replace fence "" (replace "```python" "" body)))
    as [r ->]; [done|].
  unfold chart_rejected. cbn [nonempty negb orb].
  unfold startswith. by rewrite ParserFacts.prefix_single.
Qed.

(** X7.  With a table and a script that passes the guard, the script
    runs once, and how it ends decides the reply.  When it returns, the
    reply carries the cleaned SQL, the insights, the object it bound to
    [chart] (if any) and the table as the script left it.  When it
    raises an exception, only the chart is missing.  When it ends with
    an [Exit], so does the coroutine. *)
Theorem script_outcome_in_reply message events d df w :
  blank message = false ->
  run_async message = Ok events ->
  let results := collect_state events in
  let chart_spec := default "" (results !! "chart_spec") in
  result_parser (default "{}" (results !! "query_results")) = PDict d ->
  truthy (default (PBool false) (dict_lookup "success" d)) = true ->
  truthy (default (PList []) (dict_lookup "data" d)) = true ->
  pd_DataFrame (default (PList []) (dict_lookup "data" d)) = Ok df ->
  nonempty chart_spec = true ->
  chart_rejected (clean_chart_script chart_spec) = false ->
  let ns := Namespace df (to_records df) in
  let ran := py_exec (clean_chart_script chart_spec) ns w in
  let sql_query := sql_text_normalizer (default "" (results !! "sql_query")) in
  let final_insights :=
    final_insights_of (default "" (results !! "trend_insights"))
                      (default "" (results !! "explanation_text")) in
  process_request_async message w
  = (match script_chart ran with
     | Ok chart =>
         Ok (sql_query, Some (script_df ran), option_map ExecChart chart, final_insights)
     | Raise (Error _) => Ok (sql_query, Some (script_df ran), None, final_insights)
     | Raise (Exit b) => Raise (Exit b)
     end,
     after_exec w (clean_chart_script chart_spec) ns).
Proof.
  intros Hb Hr results chart_spec Hp Hs Hd Hdf Hn Hg ns ran sql_query final_insights.
  rewrite (async_after_parse _ _ _ Hb Hr). cbv zeta.
  fold results. rewrite Hp. run. cbn [py_get]. rewrite Hs, Hd. cbn [negb].
  rewrite Hdf. fold chart_spec. rewrite (chart_synthesizer_accepted _ _ _ Hn Hg).
  cbv zeta. fold ns. fold ran.
  by destruct (script_chart ran) as [chart|[e|b]].
Qed.

(** *** What a request leaves behind *)

Lemma app_one_ne {A} (l : list A) x : (l ++ [x])%list <> l.
Proof.
  intros Heq. apply (f_equal (@List.length A)) in Heq.
  rewrite List.length_app in Heq. cbn in Heq. lia.
Qed.

Lemma at_most_exec_refl w : at_most_exec w w.
Proof. unfold at_most_exec. auto. Qed.

Lemma at_most_exec_after_exec w code ns : at_most_exec w (after_exec w code ns).
Proof.
  unfold at_most_exec, after_exec. cbn. split; [done|]. split; [eauto|].
  intros Heq. by destruct (app_one_ne _ _ Heq).
Qed.

Lemma chart_synthesizer_at_most_exec chart_spec df w r w' :
  chart_synthesizer chart_spec df w = (r, w') -> at_most_exec w w'.
Proof.
  intros Hrun.
  destruct (chart_synthesizer_cases chart_spec df w) as [Hno|(_ & _ & Hyes)].
  - rewrite Hno in Hrun. injection Hrun as <- <-. apply at_most_exec_refl.
  - rewrite Hyes in Hrun. injection Hrun as _ <-. apply at_most_exec_after_exec.
Qed.

Lemma body_at_most_exec message w r w' :
  process_request_async_body message w = (r, w') -> at_most_exec w w'.
Proof.
  unfold process_request_async_body, run_bi_pipeline_async.
  destruct (negb (nonempty (strip message))).
  { run. intros [= <- <-]. apply at_most_exec_refl. }
  run. destruct (run_async message) as [events|e];
    [|intros [= <- <-]; apply at_most_exec_refl].
  destruct (py_get _ "success" _) as [success|e];
    [|intros [= <- <-]; apply at_most_exec_refl].
  destruct (negb (truthy success)).
  { destruct (py_get _ "error" _); intros [= <- <-]; apply at_most_exec_refl. }
  destruct (py_get _ "data" _) as [data_list|e];
    [|intros [= <- <-]; apply at_most_exec_refl].
  destruct (negb (truthy data_list)); [intros [= <- <-]; apply at_most_exec_refl|].
  destruct (pd_DataFrame data_list) as [df|e];
    [|intros [= <- <-]; apply at_most_exec_refl].
  destruct (chart_synthesizer _ df w) as [[drawn|e] w1] eqn:Hc;
    intros [= <- <-]; by apply (chart_synthesizer_at_most_exec _ _ _ _ _ Hc).
Qed.

Lemma async_at_most_exec message w r w' :
  process_request_async message w = (r, w') -> at_most_exec w w'.
Proof.
  unfold process_request_async, try_except.
  destruct (process_request_async_body message w) as [[reply|[e|b]] w1] eqn:Hb;
    run; intros [= <- <-]; by apply (body_at_most_exec _ _ _ _ Hb).
Qed.

(** X8.  Apart from what an executed script does itself, a request
    touches the process in one way only.  The coroutine hands at most
    one script to [exec]; when it hands none, it leaves the process
    exactly as it was.  The synchronous handler may in addition set the
    table slot; when no script is run, no file is written. *)
Theorem request_footprint message w :
  (forall r w', process_request_async message w = (r, w') -> at_most_exec w w')
  /\ (forall r w', process_request message w = (r, w') -> at_most_exec_and_slot w w').
Proof.
  split; [intros r w'; apply async_at_most_exec|].
  intros r w'. unfold process_request, process_request_body, try_except, asyncio_run.
  unfold bind at 1. destruct (loop_running w) eqn:Hl.
  { run. intros [= <- <-]. unfold at_most_exec_and_slot. auto. }
  destruct (process_request_async message w) as [reply w1] eqn:Hr.
  destruct (async_at_most_exec _ _ _ _ Hr) as (Hloop & Hlog & Hsame).
  assert (Hfiles : exec_log w1 = exec_log w -> csv_files w1 = csv_files w)
    by (by intros ->%Hsame).
  destruct reply as [[[[sql df] chart] expl]|[e|b]].
  - destruct (no_table df); run; intros [= <- <-]; by cbn.
  - run. by intros [= <- <-].
  - by intros [= <- <-].
Qed.

(** *** Request, then download *)

(** X9.  After a request that returned a table that is not empty, the
    download action writes that very table to the time-stamped path in
    the temporary directory and returns the path. *)
Theorem download_after_request message w sql_query df chart explanation w' :
  loop_running w = false ->
  process_request message w = (Ok (sql_query, Some df, chart, explanation), w') ->
  df_empty df = false ->
  to_csv df csv_path_now = Ok tt ->
  download_query_results w' = (Ok csv_path_now, after_write w' csv_path_now df).
Proof.
  intros Hl Hrun He Hcsv.
  pose proof (process_request_slot _ _ _ _ _ _ _ Hl Hrun) as Hslot.
  cbn [no_table] in Hslot. rewrite He in Hslot.
  unfold download_query_results, write_csv. run. rewrite Hslot, He.
  fold csv_path_now. by rewrite Hcsv.
Qed.


(** X11.  When writing the CSV file fails, the download action returns
    the text [Error downloading file: <reason>] instead of a path; nothing
    is raised, no file is recorded and the stored table stays. *)
Theorem download_write_error w df e :
  current_df_storage w = Some df ->
  df_empty df = false ->
  to_csv df csv_path_now = Raise e ->
  download_query_results w = (Ok ("Error downloading file: " ++ exn_str e), w).
Proof.
  intros Hslot He Hcsv.
  unfold download_query_results, write_csv. run. rewrite Hslot, He.
  fold csv_path_now. by rewrite Hcsv.
Qed.

End WithCollaborators.

Lemma request_footprint_witness :
  at_most_exec Scenario.idle
    (snd (process_request_async (H := Examples.table_run) "How many orders?" Scenario.idle))
  /\ csv_files (snd (process_request (H := Examples.failed_run) "How many orders?"
                                     MoreExamples.with_table))
     = [].
Proof.
  split.
  - destruct (request_footprint (H := Examples.table_run) "How many orders?" Scenario.idle)
      as [Hasync _].
    exact (Hasync _ _ (surjective_pairing _)).
  - destruct (request_footprint (H := Examples.failed_run) "How many orders?"
                MoreExamples.with_table) as [_ Hsync].
    destruct (Hsync _ _ (surjective_pairing _)) as (_ & _ & Hfiles).
    apply Hfiles. vm_compute. reflexivity.
Defined.

(** *** The insights text *)

Lemma prefix_refl s : String.prefix s s = true.
Proof.
  induction s as [|c s IH]; [done|]. by rewrite prefix_cons, Ascii.eqb_refl, IH.
Qed.

Lemma contains_middle a p b : contains p (a ++ p ++ b) = true.
Proof.
  apply contains_app_l, contains_app_r, contains_prefix, prefix_refl.
Qed.

Lemma nonempty_app_l a b : nonempty a = true -> nonempty (a ++ b) = true.
Proof. by destruct a. Qed.

(** X12.  The explanation of a successful request is never empty: it
    holds the trend text under its heading when there is one, the summary
    text under its heading when there is one, and the fixed sentence when
    there is neither. *)
Theorem insights_never_empty trend_text explanation_text :
  nonempty (final_insights_of trend_text explanation_text) = true
  /\ (nonempty trend_text = true ->
      startswith ("### 📈 Strategic Trends" ++ nl ++ trend_text)
                 (final_insights_of trend_text explanation_text) = true)
  /\ (nonempty explanation_text = true ->
      contains ("### 💡 Data Summary" ++ nl ++ explanation_text)
               (final_insights_of trend_text explanation_text) = true)
  /\ (trend_text = "" -> explanation_text = "" ->
      final_insights_of trend_text explanation_text
      = "The query executed successfully but no additional insights were generated.").
Proof.
  unfold final_insights_of.
  destruct (nonempty trend_text) eqn:Ht, (nonempty explanation_text) eqn:He;
    rewrite ?app_nil.
  - set (first := "### 📈 Strategic Trends" ++ nl ++ trend_text ++ nl ++ nl ++ "---" ++ nl).
    set (second := "### 💡 Data Summary" ++ nl ++ explanation_text).
    assert (Hne : nonempty (first ++ second) = true) by done.
    rewrite Hne. split; [done|]. split; [|split].
    + intros _. unfold startswith.
      replace (first ++ second)
        with (("### 📈 Strategic Trends" ++ nl ++ trend_text)
                ++ nl ++ nl ++ "---" ++ nl ++ second)
        by (unfold first; by rewrite !app_assoc).
      apply prefix_app_r, prefix_refl.
    + intros _. rewrite <- (app_nil_r second) at 2. apply contains_middle.
    + intros ->. discriminate.
  - set (first := "### 📈 Strategic Trends" ++ nl ++ trend_text ++ nl ++ nl ++ "---" ++ nl).
    assert (Hne : nonempty first = true) by done.
    rewrite Hne. split; [done|]. split; [|split].
    + intros _. unfold startswith.
      replace first
        with (("### 📈 Strategic Trends" ++ nl ++ trend_text) ++ nl ++ nl ++ "---" ++ nl)
        by (unfold first; by rewrite !app_assoc).
      apply prefix_app_r, prefix_refl.
    + discriminate.
    + intros ->. discriminate.
  - set (second := "### 💡 Data Summary" ++ nl ++ explanation_text).
    assert (Hne : nonempty second = true) by done.
    rewrite Hne. split; [done|]. split; [discriminate|]. split.
    + intros _. apply contains_prefix, prefix_refl.
    + intros _ ->. discriminate.
  - cbn [nonempty]. split; [done|]. by repeat split.
Qed.

End RequestFacts.

(** ** Worked runs for the further properties *)

Module RequestRuns.
Import PyStr Py Pandas App Notions Examples MoreExamples RequestFacts.


Lemma missing_results_reply_witness :
  process_request_async (H := silent_run) "How many orders?" Scenario.idle
  = (Ok ("-- Error executing query" ++ nl ++ "SELECT 1" ++ nl ++ nl
           ++ "-- Error: Unknown error",
         None, None, "Error executing query: Unknown error"), Scenario.idle).
Proof.
  apply (missing_results_reply (H := silent_run) "How many orders?"
           [Event (Some (Actions [("sql_query", fenced_sql)]))]);
    vm_compute; reflexivity.
Defined.

Lemma scalar_result_reply_witness :
  process_request_async (H := scalar_run) "How many orders?" Scenario.idle
  = (Ok ("Error: 'int' object has no attribute 'get'", None, None,
         "Error: 'int' object has no attribute 'get'"), Scenario.idle).
Proof.
  apply (scalar_result_reply (H := scalar_run) "How many orders?"
           [Event (Some (Actions [("sql_query", fenced_sql); ("query_results", "42")]))]
           (PInt 42));
    [reflexivity|reflexivity|vm_compute; reflexivity|exact I].
Defined.

Lemma executed_script_is_vetted_witness :
  exec_log (World None [cleaned_script] [] false) = ([] ++ [cleaned_script])%list
  /\ contains "import" (lower cleaned_script) = true
  /\ contains fence cleaned_script = false.
Proof.
  destruct (executed_script_is_vetted (H := table_run) chart_script two_row_frame
              Scenario.idle
              (Ok (Some (Handle ("chart of " ++ cleaned_script)), two_row_frame))
              (World None [cleaned_script] [] false))
    as [[Hnone _]|(_ & Hlog & _ & _ & _ & Himport & Hfence)].
  - vm_compute. reflexivity.
  - discriminate Hnone.
  - split; [exact Hlog|]. split; [exact Himport|exact Hfence].
Defined.

Lemma markup_is_never_executed_witness :
  chart_synthesizer (H := table_run) "<thinking_process>import os; os.remove('x')"
                    two_row_frame Scenario.idle
  = (Ok (None, two_row_frame), Scenario.idle).
Proof.
  apply (markup_is_never_executed (H := table_run)); reflexivity.
Defined.

Lemma script_outcome_in_reply_witness :
  process_request_async (H := crashing_script_run) "How many orders?" Scenario.idle
  = (Ok ("SELECT 1", Some two_row_frame, None,
         "The query executed successfully but no additional insights were generated."),
     World None [cleaned_script] [] false)
  /\ process_request_async (H := meddling_script_run) "How many orders?" Scenario.idle
     = (Ok ("SELECT 1", Some (Frame ["a"; "b"] []),
            Some (ExecChart (Handle ("chart of " ++ cleaned_script))),
            "The query executed successfully but no additional insights were generated."),
        World (Some two_row_frame) [cleaned_script] [] false)
  /\ process_request_async (H := exiting_script_run) "How many orders?" Scenario.idle
     = (Raise (Exit (Exn "SystemExit" "1")), World None [cleaned_script] [] false).
Proof.
  pose (events := [Event (Some (Actions [("sql_query", fenced_sql);
                                          ("query_results", four_line_table "---|---");
                                          ("chart_spec", chart_script)]))]).
  pose (d := [("success", PBool true);
              ("data", PList [PDict [("a", PFloat (PyFloat.to_float64 1)); ("b", PStr "x")];
                              PDict [("a", PFloat (PyFloat.to_float64 2)); ("b", PStr "y")]])]).
  split; [|split].
  - pose proof (script_outcome_in_reply (H := crashing_script_run)
                  "How many orders?" events d two_row_frame Scenario.idle) as Hreply.
    cbv zeta in Hreply. rewrite Hreply; vm_compute; reflexivity.
  - pose proof (script_outcome_in_reply (H := meddling_script_run)
                  "How many orders?" events d two_row_frame Scenario.idle) as Hreply.
    cbv zeta in Hreply. rewrite Hreply; vm_compute; reflexivity.
  - pose proof (script_outcome_in_reply (H := exiting_script_run)
                  "How many orders?" events d two_row_frame Scenario.idle) as Hreply.
    cbv zeta in Hreply. rewrite Hreply; vm_compute; reflexivity.
Defined.

(** A script that empties its table in place and rebinds the slot: the
    handler sees the empty table, answers with the placeholder chart and
    clears the slot. *)
Example emptied_table_reply :
  process_request (H := meddling_script_run) "How many orders?" Scenario.idle
  = (Ok ("SELECT 1", Some (Frame ["a"; "b"] []), Some (TextChart create_no_data_chart),
         "The query executed successfully but no additional insights were generated."),
     World None [cleaned_script] [] false).
Proof. vm_compute. reflexivity. Qed.

Lemma download_after_request_witness :
  download_query_results (H := table_run)
    (snd (process_request (H := table_run) "How many orders?" Scenario.idle))
  = (Ok "/tmp/query_results_20240101_120000.csv",
     after_write (snd (process_request (H := table_run) "How many orders?" Scenario.idle))
                 "/tmp/query_results_20240101_120000.csv" two_row_frame).
Proof.
  apply (download_after_request (H := table_run) "How many orders?" Scenario.idle
           "SELECT 1" two_row_frame
           (Some (ExecChart (Handle ("chart of " ++ cleaned_script))))
           "The query executed successfully but no additional insights were generated.");
    vm_compute; reflexivity.
Defined.


Lemma download_write_error_witness :
  download_query_results (H := full_disk) with_table
  = (Ok "Error downloading file: No space left on device", with_table).
Proof.
  apply (download_write_error (H := full_disk) with_table two_row_frame
           (Exn "OSError" "No space left on device")); reflexivity.
Defined.

Lemma insights_never_empty_witness :
  startswith ("### 📈 Strategic Trends" ++ nl ++ "Sales grow.")
             (final_insights_of "Sales grow." "Ten rows.") = true
  /\ contains ("### 💡 Data Summary" ++ nl ++ "Ten rows.")
              (final_insights_of "Sales grow." "Ten rows.") = true.
Proof.
  destruct (insights_never_empty "Sales grow." "Ten rows.") as (_ & Htrend & Hsummary & _).
  split; [apply Htrend|apply Hsummary]; reflexivity.
Defined.

End RequestRuns.

(** ** The Markdown strategy and the fallback *)

Module TableFacts.
Import PyStr PyStrFacts Py Pandas App Notions ParserFacts.

Lemma dict_set_keys k v d : map fst (dict_set k v d) = add_column (map fst d) k.
Proof.
  unfold add_column. induction d as [|[k' v'] d IH]; [done|].
  cbn [dict_set map fst existsb].
  destruct (String.eqb_spec k k') as [->|Hne]; [done|].
  cbn [map fst orb]. rewrite IH. by destruct (existsb (String.eqb k) (map fst d)).
Qed.

Lemma fill_row_keys headers values i row_dict :
  map fst (fill_row headers values i row_dict)
  = fold_left add_column headers (map fst row_dict).
Proof.
  revert i row_dict. induction headers as [|h headers IH]; intros i row_dict; [done|].
  cbn [fill_row fold_left]. by rewrite IH, dict_set_keys.
Qed.

Lemma data_rows_keys headers lines row :
  In row (data_rows headers lines) -> row_keys row = Some (table_keys headers).
Proof.
  induction lines as [|line lines IH]; [done|].
  cbn [data_rows]. destruct (startswith ":" line || contains "---" line); [done|].
  destruct (_ && _); [|done].
  intros [<-|Hin]; [|by apply IH].
  cbn [row_keys]. by rewrite fill_row_keys.
Qed.

Lemma data_rows_length headers lines :
  List.length (data_rows headers lines) <= List.length lines.
Proof.
  induction lines as [|line lines IH]; [done|].
  cbn [data_rows]. repeat case_match; cbn [List.length]; lia.
Qed.

(** X13.  When the Markdown strategy succeeds, its result is a success
    record with at least one row; every row has the same keys, namely the
    distinct header names in the order of the header line; and there are
    at most as many rows as pipe lines after the first two. *)
Theorem table_rows_share_keys raw_str query_results :
  table_strategy raw_str = Ok query_results ->
  exists rows,
    query_results = PDict [("success", PBool true); ("data", PList rows)]
    /\ rows <> []
    /\ (forall row, In row rows ->
          row_keys row
          = Some (table_keys (headers_of (nth 0 (table_lines_of raw_str) ""))))
    /\ List.length rows + 2 <= List.length (table_lines_of raw_str).
Proof.
  unfold table_strategy.
  destruct (3 <=? List.length (table_lines_of raw_str))%nat eqn:Hlen; [|done].
  set (headers := headers_of (nth 0 (table_lines_of raw_str) "")).
  destruct (data_rows headers (skipn 2 (table_lines_of raw_str))) as [|row rows] eqn:Hrows;
    [done|].
  intros [= <-]. exists (row :: rows). split; [done|]. split; [done|].
  rewrite <- Hrows. split.
  - intros r. apply data_rows_keys.
  - pose proof (data_rows_length headers (skipn 2 (table_lines_of raw_str))) as Hle.
    rewrite length_skipn in Hle. apply Nat.leb_le in Hlen. lia.
Qed.

Lemma table_rows_share_keys_witness :
  exists rows,
    Examples.two_rows = PDict [("success", PBool true); ("data", PList rows)]
    /\ rows <> []
    /\ (forall row, In row rows ->
          row_keys row
          = Some (table_keys
                    (headers_of (nth 0 (table_lines_of (Examples.four_line_table "-|-")) ""))))
    /\ List.length rows + 2
       <= List.length (table_lines_of (Examples.four_line_table "-|-")).
Proof.
  apply (table_rows_share_keys (Examples.four_line_table "-|-")).
  vm_compute. reflexivity.
Defined.

(** *** Text without a table *)

Lemma split_from_pieces_hold c sep skip s h t :
  split_from sep skip s = (h, t) ->
  forall piece, In piece (h :: t) ->
    contains (String c "") piece = true -> contains (String c "") s = true.
Proof.
  revert skip h t. induction s as [|a s IH]; intros skip h t.
  - intros [= <- <-] piece [<-|[]]. done.
  - destruct skip as [|k].
    + destruct (String.prefix sep (String a s)) eqn:Hp.
      * rewrite (split_from_match _ _ _ Hp).
        rewrite <- (split_from_drop sep (String.length sep - 1) s).
        destruct (split_from sep (String.length sep - 1) s) as [h' t'] eqn:Hs.
        intros [= <- <-] piece [<-|Hin]; [done|]. intros Hc.
        rewrite contains_cons. apply orb_true_iff. right.
        by apply (IH _ _ _ Hs piece).
      * rewrite (split_from_step _ _ _ Hp).
        destruct (split_from sep 0 s) as [h' t'] eqn:Hs.
        intros [= <- <-] piece [<-|Hin].
        -- rewrite !contains_single_cons. intros [Heq|Hc]%orb_true_iff.
           ++ by rewrite Heq.
           ++ apply orb_true_iff. right. apply (IH _ _ _ Hs h'); [by left|done].
        -- intros Hc. rewrite contains_cons. apply orb_true_iff. right.
           apply (IH _ _ _ Hs piece); [by right|done].
    + cbn [split_from]. intros Hs piece Hin Hc.
      rewrite contains_cons. apply orb_true_iff. right.
      by apply (IH _ _ _ Hs piece).
Qed.

Lemma filter_none {A} (f : A -> bool) l :
  (forall x, In x l -> f x = false) -> List.filter f l = [].
Proof.
  induction l as [|x l IH]; [done|]. intros Hall. cbn [List.filter].
  rewrite (Hall x) by (by left). apply IH. intros y Hy. apply Hall. by right.
Qed.

Lemma no_pipe_no_lines raw_str :
  contains "|" raw_str = false -> table_lines_of raw_str = [].
Proof.
  intros Hp. unfold table_lines_of. rewrite filter_none; [done|].
  intros line Hin. apply andb_false_iff. left.
  destruct (contains "|" line) eqn:Hl; [|done].
  unfold split in Hin. destruct (split_from nl 0 raw_str) as [h t] eqn:Hs.
  by rewrite (split_from_pieces_hold _ _ _ _ _ _ Hs line Hin Hl) in Hp.
Qed.

Lemma take_length n s : String.length (take n s) <= n.
Proof.
  revert s. induction n as [|n IH]; intros [|c s]; cbn [take String.length]; try lia.
  specialize (IH s). lia.
Qed.

Section WithCollaborators.
Context `{Collaborators}.

(** X14.  Text in which fewer than three lines hold a pipe (in
    particular text without any pipe) and which is not JSON is a failed
    result: no rows, and an error that quotes at most the first hundred
    characters of the trimmed text, so at most 139 characters in all. *)
Theorem text_without_table_is_failure :
  (forall raw, contains "|" raw = false -> table_lines_of (strip raw) = [])
  /\ (forall raw e_json,
        List.length (table_lines_of (strip raw)) < 3 ->
        json_loads (Re.sub_trailing_fence (Re.sub_leading_fence (strip raw)))
        = Raise e_json ->
        exists error,
          result_parser raw
          = PDict [("success", PBool false); ("data", PList []); ("error", PStr error)]
          /\ error = "Could not parse query results. Output: " ++ take 100 (strip raw)
          /\ String.length error <= 139).
Proof.
  split.
  - intros raw Hp. by apply no_pipe_no_lines, contains_strip_false.
  - intros raw e_json Hlen Hj.
    exists ("Could not parse query results. Output: " ++ take 100 (strip raw)).
    split; [|split; [done|]].
    + rewrite (result_parser_not_json _ _ Hj). unfold table_strategy.
      apply Nat.leb_gt in Hlen. by rewrite Hlen.
    + rewrite app_length. pose proof (take_length 100 (strip raw)). cbn [String.length]. lia.
Qed.

End WithCollaborators.

Lemma text_without_table_is_failure_witness :
  exists error,
    result_parser (H := Examples.failed_run) "connection refused: host|port unreachable"
    = PDict [("success", PBool false); ("data", PList []); ("error", PStr error)]
    /\ error = "Could not parse query results. Output: "
                 ++ take 100 (strip "connection refused: host|port unreachable")
    /\ String.length error <= 139.
Proof.
  destruct (text_without_table_is_failure (H := Examples.failed_run)) as [_ Hfail].
  apply (Hfail _ Json.JSONDecodeError); [vm_compute; lia|vm_compute; reflexivity].
Defined.

End TableFacts.

(** ** Bounds on the SQL text normalizer *)

Module NormalizerBounds.
Import PyStr PyStrFacts ReplaceFacts Aux App Notions NormalizerFacts ParserFacts.

Lemma lstrip_by_length p s : String.length (lstrip_by p s) <= String.length s.
Proof.
  destruct (lstrip_by_suffix p s) as [t Ht]. rewrite Ht at 2. rewrite app_length. lia.
Qed.

Lemma rstrip_by_length p s : String.length (rstrip_by p s) <= String.length s.
Proof.
  destruct (rstrip_by_prefix p s) as [t Ht]. rewrite Ht at 2. rewrite app_length. lia.
Qed.

Lemma strip_length s : String.length (strip s) <= String.length s.
Proof.
  unfold strip. pose proof (rstrip_by_length is_space (lstrip_by is_space s)).
  pose proof (lstrip_by_length is_space s). lia.
Qed.

Lemma replace_from_length old k s :
  String.length (replace_from old "" k s) <= String.length s.
Proof.
  revert k. induction s as [|c s IH]; intros k; [done|].
  cbn [replace_from]. destruct k as [|k].
  - destruct (String.prefix old (String c s)).
    + rewrite app_nil. specialize (IH (String.length old - 1)). cbn [String.length]. lia.
    + specialize (IH 0). cbn [String.length]. lia.
  - specialize (IH k). cbn [String.length]. lia.
Qed.

Lemma replace_length old s : String.length (replace old "" s) <= String.length s.
Proof. apply replace_from_length. Qed.

Lemma split_from_piece_length sep skip s h t :
  split_from sep skip s = (h, t) ->
  forall piece, In piece (h :: t) -> String.length piece <= String.length s.
Proof.
  revert skip h t. induction s as [|a s IH]; intros skip h t.
  - intros [= <- <-] piece [<-|[]]. done.
  - cbn [split_from]. destruct skip as [|k].
    + destruct (String.prefix sep (String a s)).
      * destruct (split_from sep (String.length sep - 1) s) as [h' t'] eqn:Hs.
        intros [= <- <-] piece [<-|Hin]; cbn [String.length]; [lia|].
        pose proof (IH _ _ _ Hs piece Hin). lia.
      * destruct (split_from sep 0 s) as [h' t'] eqn:Hs.
        intros [= <- <-] piece [<-|Hin]; cbn [String.length].
        -- pose proof (IH _ _ _ Hs h' (or_introl eq_refl)). lia.
        -- pose proof (IH _ _ _ Hs piece (or_intror Hin)). lia.
    + intros Hs piece Hin. pose proof (IH _ _ _ Hs piece Hin). cbn [String.length]. lia.
Qed.

Lemma last_in {A} (x : A) l d : In (List.last (x :: l) d) (x :: l).
Proof.
  revert x. induction l as [|y l IH]; intros x; [by left|].
  right. apply (IH y).
Qed.

Lemma last_piece_length sep s :
  String.length (last_piece (split sep s)) <= String.length s.
Proof.
  unfold last_piece, split. destruct (split_from sep 0 s) as [h t] eqn:Hs.
  apply (split_from_piece_length _ _ _ _ _ Hs), last_in.
Qed.

Lemma fence_step_length body : String.length (fence_step body) <= String.length body.
Proof.
  unfold fence_step. repeat case_match; [| |lia].
  - pose proof (strip_length (replace fence "" (replace "```sql" "" body))).
    pose proof (replace_length fence (replace "```sql" "" body)).
    pose proof (replace_length "```sql" body). lia.
  - pose proof (strip_length (replace fence "" body)).
    pose proof (replace_length fence body). lia.
Qed.

Lemma blank_app a b : blank (a ++ b) = blank a && blank b.
Proof.
  unfold blank. induction a as [|c a IH]; [done|].
  rewrite app_cons. cbn [list_ascii_of_string forallb]. by rewrite IH, andb_assoc.
Qed.

Lemma blank_no_marker raw : blank raw = true -> contains thinking_close raw = false.
Proof.
  intros Hb. destruct (contains thinking_close raw) eqn:Hc; [|done].
  destruct (last_piece_split thinking_close raw thinking_close_nonempty) as [_ Hsome].
  destruct (Hsome Hc) as [pre Hpre]. rewrite Hpre in Hb.
  rewrite !blank_app in Hb. apply andb_true_iff in Hb as [_ Hb].
  by apply andb_true_iff in Hb as [Hb _].
Qed.

(** X15.  The normalizer only removes text: its result is never
    longer than the raw SQL, is always trimmed, and is empty for an empty
    or whitespace-only input. *)
Theorem normalizer_only_removes raw :
  String.length (sql_text_normalizer raw) <= String.length raw
  /\ strip (sql_text_normalizer raw) = sql_text_normalizer raw
  /\ (blank raw = true -> sql_text_normalizer raw = "").
Proof.
  split; [|split].
  - destruct (contains thinking_close raw) eqn:Hc.
    + rewrite (normalizer_marker _ Hc).
      pose proof (fence_step_length (strip (last_piece (split thinking_close raw)))).
      pose proof (strip_length (last_piece (split thinking_close raw))).
      pose proof (last_piece_length thinking_close raw). lia.
    + rewrite (normalizer_no_marker _ Hc).
      pose proof (fence_step_length (strip raw)). pose proof (strip_length raw). lia.
  - apply normalizer_trimmed.
  - intros Hb. rewrite (normalizer_no_marker _ (blank_no_marker _ Hb)).
    by rewrite (RequestFacts.strip_blank _ Hb).
Qed.

Lemma normalizer_only_removes_witness :
  sql_text_normalizer ("  " ++ nl ++ "  ") = "".
Proof.
  destruct (normalizer_only_removes ("  " ++ nl ++ "  ")) as (_ & _ & Hblank).
  apply Hblank. reflexivity.
Defined.

End NormalizerBounds.

(** ** The model listing script *)

Module CheckModelsFacts.
Import PyStr PyStrFacts ReplaceFacts Py CheckModels.

(** X16.  Without an API key (the variable unset or empty) the script
    prints the one line that says so and nothing else, whatever the
    services would answer. *)
Theorem no_key_no_listing (S : Service) :
  getenv_api_key = None \/ getenv_api_key = Some "" ->
  check_models = [no_key_line].
Proof.
  unfold check_models. by intros [->| ->].
Qed.

Lemma no_key_no_listing_witness :
  check_models (H := {| getenv_api_key := Some "";
                        make_client := fun _ => Raise (RuntimeError "unreachable");
                        models_list := Raise (RuntimeError "unreachable") |})
  = [no_key_line].
Proof. apply no_key_no_listing. by right. Defined.

Lemma first_loop_spec names found :
  first_loop names found
  = (map recommended_line (List.filter recommended names),
     found || existsb recommended names).
Proof.
  revert found. induction names as [|name names IH]; intros found.
  - by rewrite orb_false_r.
  - cbn [first_loop List.filter existsb]. destruct (recommended name).
    + rewrite IH. cbn [map orb]. by rewrite orb_true_r.
    + by rewrite IH.
Qed.

Lemma replace_absent old new s : contains old s = false -> replace old new s = s.
Proof.
  induction s as [|c s IH]; [done|].
  rewrite contains_cons. intros [Hp Hc]%orb_false_iff.
  rewrite (replace_step _ _ _ _ Hp). by rewrite (IH Hc).
Qed.

(** X17.  With a key, a client and a listing that go through, the
    script prints its three opening lines, then one line for every model
    whose name holds [flash] or [gemini-1.5] in some letter case, in the
    order of the listing; the full list follows only when no model
    qualified.  A name [models/<short>] is shown as [<short>]. *)
Theorem recommended_models_listed (S : Service) api_key names again :
  getenv_api_key = Some api_key ->
  nonempty api_key = true ->
  make_client api_key = Ok tt ->
  models_list = Ok (Pass names None, Pass again None) ->
  check_models
  = ([("✅ API Key found: " ++ take 5 api_key ++ "...")%string;
      (nl ++ " Retrieving a list of available models...")%string;
      (nl ++ "=== List of Recommended Models (Guaranteed to work) ===")%string]
       ++ map recommended_line (List.filter recommended names)
       ++ (if existsb recommended names then []
           else "(No Flash models found. Please see the full list below.)"
                  :: map (fun name => ("- " ++ name)%string) again))%list
  /\ (forall short,
        contains "models/" short = false ->
        recommended_line ("models/" ++ short) = "- " ++ short).
Proof.
  intros Hkey Hne Hclient Hlist. split.
  - unfold check_models. rewrite Hkey, Hne, Hclient, Hlist, first_loop_spec.
    cbn [yielded broke orb app]. do 3 f_equal.
    destruct (existsb recommended names); [done|]. by rewrite List.app_nil_r.
  - intros short Hshort. unfold recommended_line. f_equal.
    rewrite (app_cons "m"), replace_match
      by (rewrite <- (app_cons "m"); apply (prefix_app_r _ "models/"), RequestFacts.prefix_refl).
    rewrite app_nil. change (String.length "models/" - 1) with 6.
    change (drop 6 ("odels/" ++ short)) with short.
    by apply replace_absent.
Qed.

Lemma recommended_models_listed_witness :
  check_models (H := listing "AIzaSyEXAMPLE"
                             ["models/gemini-1.5-Flash"; "models/embedding-001";
                              "models/gemini-2.0-flash"])
  = ["✅ API Key found: AIzaS...";
     nl ++ " Retrieving a list of available models...";
     nl ++ "=== List of Recommended Models (Guaranteed to work) ===";
     "- gemini-1.5-Flash";
     "- gemini-2.0-flash"].
Proof.
  destruct (recommended_models_listed
              (listing "AIzaSyEXAMPLE"
                       ["models/gemini-1.5-Flash"; "models/embedding-001";
                        "models/gemini-2.0-flash"])
              "AIzaSyEXAMPLE"
              ["models/gemini-1.5-Flash"; "models/embedding-001"; "models/gemini-2.0-flash"]
              ["models/gemini-1.5-Flash"; "models/embedding-001"; "models/gemini-2.0-flash"]
              eq_refl eq_refl eq_refl eq_refl) as [Hout _].
  rewrite Hout. vm_compute. reflexivity.
Defined.

End CheckModelsFacts.
